(** * Verification of the testimony tools of [src/app.py]

    Shallow embedding of [compare_testimonies], [transcribe_audio] and
    [load_history].  Python strings are modelled as Rocq [string]s holding
    their UTF-8 bytes (byte-wise lexicographic order on UTF-8 coincides with
    Python's code-point order on [str]).  The OpenAI client and [json.loads]
    are library code: they are parameters of the development. *)

From stdpp Require Import base list gmap strings sorting pretty.
From Stdlib Require Import ZArith Ascii.
From Stdlib Require String.

Local Open Scope stdpp_scope.
#[local] Set Warnings "-register-all".

(** ** Python values, exceptions and the error monad *)

(** A Python exception: its class name and [str(e)]. *)
Record py_exc := PyExc { exc_type : string; exc_msg : string }.

(** Either a value or a raised exception. *)
Inductive py_result (A : Type) : Type :=
| Ok (a : A)
| Raise (e : py_exc).
Arguments Ok {A} a.
Arguments Raise {A} e.

Global Instance py_result_ret : MRet py_result := fun A a => Ok a.
Global Instance py_result_bind : MBind py_result :=
  fun A B f m => match m with Ok a => f a | Raise e => Raise e end.

(** The values [json.loads] produces (JSON numbers are modelled as
    integers).  [JObj] is a Python [dict]: the key list is in insertion
    order and, as [json.loads] builds it, has no duplicate key. *)
Inductive json : Type :=
| JNull
| JBool (b : bool)
| JNum (z : Z)
| JStr (s : string)
| JList (xs : list json)
| JObj (kvs : list (string * json)).

(** Outcome of [json.loads]: a value, a [json.JSONDecodeError] (with its
    [str]), or another exception (e.g. [RecursionError] on deep nesting). *)
Inductive loads_result : Type :=
| LoadsOk (v : json)
| LoadsDecodeError (msg : string)
| LoadsRaises (e : py_exc).

(** Diagnostics: [st.warning], [st.error], [print] and [logger.error]. *)
Inductive ui_event : Type :=
| StWarning (s : string)
| StError (s : string)
| StdoutPrint (s : string)
| LogError (s : string).

Definition nl : string := String (Ascii.ascii_of_nat 10) EmptyString.
Definition dq : string := String (Ascii.ascii_of_nat 34) EmptyString.
Definition quoted (s : string) : string := dq +:+ s +:+ dq.

(** ** [str.strip()]

    Python strips the characters for which [str.isspace] holds: U+0009 to
    U+000D, U+001C to U+001F, U+0020, U+0085, U+00A0, U+1680, U+2000 to
    U+200A, U+2028, U+2029, U+202F, U+205F and U+3000.  On the UTF-8 bytes
    of a string these are the bytes 9-13, 28-31 and 32, the two-byte
    sequences [C2 85] and [C2 A0], and the three-byte sequences [E1 9A 80],
    [E2 80 80]-[E2 80 8A], [E2 80 A8], [E2 80 A9], [E2 80 AF], [E2 81 9F]
    and [E3 80 80].  The bytes are those of a Python [str], so a sequence
    starting with a lead byte is a whole character, read from either end. *)
Definition is_py_space (c : ascii) : bool :=
  let n := nat_of_ascii c in
  ((9 <=? n) && (n <=? 13)) || ((28 <=? n) && (n <=? 31)) || (n =? 32).

Definition is_py_space2 (a b : ascii) : bool :=
  (nat_of_ascii a =? 194) && ((nat_of_ascii b =? 133) || (nat_of_ascii b =? 160)).

Definition is_py_space3 (a b c : ascii) : bool :=
  let x := nat_of_ascii a in
  let y := nat_of_ascii b in
  let z := nat_of_ascii c in
  ((x =? 225) && (y =? 154) && (z =? 128)) ||
  ((x =? 226) && (y =? 128) &&
     (((128 <=? z) && (z <=? 138)) || (z =? 168) || (z =? 169) || (z =? 175))) ||
  ((x =? 226) && (y =? 129) && (z =? 159)) ||
  ((x =? 227) && (y =? 128) && (z =? 128)).

(** The leading white space removed, character by character. *)
Fixpoint lstrip_bytes (l : list ascii) : list ascii :=
  match l with
  | [] => []
  | a :: l1 =>
      if is_py_space a then lstrip_bytes l1 else
      match l1 with
      | [] => l
      | b :: l2 =>
          if is_py_space2 a b then lstrip_bytes l2 else
          match l2 with
          | [] => l
          | c :: l3 => if is_py_space3 a b c then lstrip_bytes l3 else l
          end
      end
  end.

(** The trailing white space removed, on the reversed bytes. *)
Fixpoint rstrip_rev (r : list ascii) : list ascii :=
  match r with
  | [] => []
  | c :: r1 =>
      if is_py_space c then rstrip_rev r1 else
      match r1 with
      | [] => r
      | b :: r2 =>
          if is_py_space2 b c then rstrip_rev r2 else
          match r2 with
          | [] => r
          | a :: r3 => if is_py_space3 a b c then rstrip_rev r3 else r
          end
      end
  end.

Definition py_strip (s : string) : string :=
  String.string_of_list_ascii
    (reverse (rstrip_rev (reverse (lstrip_bytes (String.list_ascii_of_string s))))).

(** ** The chat-completion request of [compare_testimonies] *)

Record chat_request := ChatRequest {
  cr_model : string;
  cr_messages : list (string * string);   (** (role, content) *)
  cr_temperature_tenths : Z;              (** [temperature] times ten *)
  cr_response_format : string             (** [response_format["type"]] *)
}.

(** [response.choices[i].message.content] *)
Record chat_message := ChatMessage { content : option string }.
Record chat_completion := ChatCompletion { choices : list chat_message }.

Definition compare_prompt (text1 text2 : string) : string :=
  "Вы следователь, сопоставляющий показания для выявления противоречий. " +:+
  "Сравните следующие два показания и определите существенные противоречия между ними. " +:+
  "Для каждого найденного противоречия предоставьте:" +:+ nl +:+
  "1. Краткое описание сути противоречия." +:+ nl +:+
  "2. Точную цитату из показаний Лица №1, иллюстрирующую это противоречие." +:+ nl +:+
  "3. Точную цитату из показаний Лица №2, иллюстрирующую это противоречие." +:+ nl +:+
  "4. Оценку значимости противоречия (например, Низкая, Средняя, Высокая)." +:+ nl +:+ nl +:+
  "Ответ должен быть представлен СТРОГО в формате JSON списка объектов, где каждый объект имеет ключи: " +:+
  "'description' (строка), 'quote1' (строка), 'quote2' (строка), 'significance' (строка)." +:+ nl +:+
  "Пример объекта JSON:" +:+ nl +:+
  "{" +:+ nl +:+
  "  " +:+ quoted "description" +:+ ": " +:+ quoted "Время ухода из дома" +:+ "," +:+ nl +:+
  "  " +:+ quoted "quote1" +:+ ": " +:+ quoted "Я ушел из дома около 9 утра." +:+ "," +:+ nl +:+
  "  " +:+ quoted "quote2" +:+ ": " +:+ quoted "Он вышел не раньше 11 часов." +:+ "," +:+ nl +:+
  "  " +:+ quoted "significance" +:+ ": " +:+ quoted "Средняя" +:+ nl +:+
  "}" +:+ nl +:+ nl +:+
  "Если противоречий не найдено, верните пустой JSON список []." +:+ nl +:+ nl +:+
  "Показания лица №1:" +:+ nl +:+ text1 +:+ nl +:+ nl +:+
  "Показания лица №2:" +:+ nl +:+ text2.

Definition compare_request (text1 text2 : string) : chat_request :=
  {| cr_model := "gpt-4o-mini";
     cr_messages :=
       [("system", "Вы опытный следователь, точно извлекающий противоречия и цитаты из показаний в формате JSON.");
        ("user", compare_prompt text1 text2)];
     cr_temperature_tenths := 3;
     cr_response_format := "json_object" |}.

(** [response.choices[0].message.content.strip()] *)
Definition raw_response_of (resp : chat_completion) : py_result string :=
  match choices resp with
  | [] => Raise (PyExc "IndexError" "list index out of range")
  | m :: _ =>
      match content m with
      | None => Raise (PyExc "AttributeError" "'NoneType' object has no attribute 'strip'")
      | Some c => Ok (py_strip c)
      end
  end.

(** [for key, value in d.items(): if isinstance(value, list): ...] *)
Fixpoint first_list_entry (kvs : list (string * json)) : option (string * list json) :=
  match kvs with
  | [] => None
  | (k, JList l) :: _ => Some (k, l)
  | _ :: kvs' => first_list_entry kvs'
  end.

Definition not_list_fallback (raw : string) : list ui_event * option (list json) :=
  ([StError "Модель вернула корректный JSON, но не в формате списка.";
    StdoutPrint ("Неожиданный JSON от OpenAI: " +:+ raw)], Some []).

(** The branch on the parsed value, inside the inner [try]. *)
Definition parse_contradictions (raw : string) (v : json)
  : list ui_event * option (list json) :=
  match v with
  | JList l => ([], Some l)
  | JObj kvs =>
      match first_list_entry kvs with
      | Some (k, l) =>
          ([StWarning ("Модель вернула JSON-объект вместо списка. Использую список из ключа '" +:+ k +:+ "'.")],
           Some l)
      | None => not_list_fallback raw
      end
  | _ => not_list_fallback raw
  end.

Section Compare.
(** [client.chat.completions.create]: a raised exception is a failure of
    the remote call itself. *)
Variable chat_create : chat_request -> py_result chat_completion.
(** [json.loads] *)
Variable json_loads : string -> loads_result.

(** The outer [except Exception as e] *)
Definition outer_handler (e : py_exc) : list ui_event * option (list json) :=
  ([StError ("Ошибка при сравнении показаний: " +:+ exc_msg e)], None).

Definition compare_testimonies (text1 text2 : string)
  : list ui_event * option (list json) :=
  match response ← chat_create (compare_request text1 text2);
        raw_response_of response with
  | Raise e => outer_handler e
  | Ok raw_response =>
      match json_loads raw_response with
      | LoadsOk v => parse_contradictions raw_response v
      | LoadsDecodeError m =>
          ([StError ("Ошибка декодирования JSON ответа от OpenAI: " +:+ m);
            StWarning "Модель не вернула валидный JSON. Противоречия не будут извлечены.";
            StdoutPrint ("Невалидный JSON от OpenAI: " +:+ raw_response)], Some [])
      | LoadsRaises e => outer_handler e
      end
  end.
End Compare.

(** ** The application state touched by these functions

    The files of the local file system (path to contents) and the
    diagnostics emitted so far (Streamlit messages, stdout, the log). *)
Record world := World { fs : gmap string string; ui : list ui_event }.

Definition emit (w : world) (evs : list ui_event) : world :=
  {| fs := fs w; ui := ui w ++ evs |}.

(** [compare_testimonies] run against the application state: its
    diagnostics are appended to the UI, nothing else changes. *)
Definition compare_testimonies_in (chat_create : chat_request -> py_result chat_completion)
    (json_loads : string -> loads_result) (w : world) (text1 text2 : string)
  : world * option (list json) :=
  let '(evs, r) := compare_testimonies chat_create json_loads text1 text2 in
  (emit w evs, r).

(** ** [transcribe_audio] *)

Section Transcribe.
(** [client.audio.transcriptions.create(model=..., file=..., language=...).text]
    on the bytes of the opened file. *)
Variable transcriptions_create : string -> string -> string -> py_result string.

(** [os.path.exists] / [os.remove] *)
Definition os_path_exists (w : world) (p : string) : bool :=
  bool_decide (is_Some (fs w !! p)).
Definition os_remove (w : world) (p : string) : world :=
  {| fs := delete p (fs w); ui := ui w |}.

(** The [try]/[except] part: [open(audio_file, "rb")] raises
    [FileNotFoundError] when the path does not exist. *)
Definition transcribe_try (w : world) (audio_file language : string)
  : world * option string :=
  match fs w !! audio_file with
  | None =>
      (emit w [StError ("Ошибка при транскрибации: " +:+
               "[Errno 2] No such file or directory: '" +:+ audio_file +:+ "'")], None)
  | Some bytes =>
      match transcriptions_create "whisper-1" bytes language with
      | Ok text => (w, Some text)
      | Raise e => (emit w [StError ("Ошибка при транскрибации: " +:+ exc_msg e)], None)
      end
  end.

(** The [finally] clause runs after the value to return is fixed. *)
Definition transcribe_audio (w : world) (audio_file language : string)
  : world * option string :=
  let '(w1, r) := transcribe_try w audio_file language in
  ((if os_path_exists w1 audio_file then os_remove w1 audio_file else w1), r).
End Transcribe.

(** ** Python comparison of [json] values, as used by [sorted] *)

Definition type_name (v : json) : string :=
  match v with
  | JNull => "NoneType" | JBool _ => "bool" | JNum _ => "int"
  | JStr _ => "str" | JList _ => "list" | JObj _ => "dict"
  end.

Fixpoint assoc_lookup (k : string) (kvs : list (string * json)) : option json :=
  match kvs with
  | [] => None
  | (k', v) :: kvs' => if String.eqb k k' then Some v else assoc_lookup k kvs'
  end.

(** [bool] is a subclass of [int] in Python. *)
Definition as_number (v : json) : option Z :=
  match v with
  | JBool b => Some (if b then 1%Z else 0%Z)
  | JNum z => Some z
  | _ => None
  end.

(** [a == b] *)
Fixpoint py_eq (a b : json) : bool :=
  match a, b with
  | JNull, JNull => true
  | JStr s, JStr t => String.eqb s t
  | JList xs, JList ys =>
      (fix go (xs ys : list json) : bool :=
         match xs, ys with
         | [], [] => true
         | x :: xs', y :: ys' => py_eq x y && go xs' ys'
         | _, _ => false
         end) xs ys
  | JObj k1, JObj k2 =>
      (length k1 =? length k2)%nat &&
      (fix go (k1 : list (string * json)) : bool :=
         match k1 with
         | [] => true
         | (k, v) :: r =>
             match assoc_lookup k k2 with
             | Some v' => py_eq v v'
             | None => false
             end && go r
         end) k1
  | _, _ =>
      match as_number a, as_number b with
      | Some x, Some y => Z.eqb x y
      | _, _ => false
      end
  end.

Definition lt_type_error (a b : json) : py_exc :=
  PyExc "TypeError" ("'<' not supported between instances of '" +:+ type_name a
                     +:+ "' and '" +:+ type_name b +:+ "'").

(** [a < b]: strings and numbers compare, lists lexicographically (first
    unequal items, else lengths); every other pair raises [TypeError]. *)
Fixpoint py_lt (a b : json) : py_result bool :=
  match a, b with
  | JStr s, JStr t => Ok (String.ltb s t)
  | JList xs, JList ys =>
      (fix go (xs ys : list json) : py_result bool :=
         match xs, ys with
         | [], [] => Ok false
         | [], _ :: _ => Ok true
         | _ :: _, [] => Ok false
         | x :: xs', y :: ys' => if py_eq x y then go xs' ys' else py_lt x y
         end) xs ys
  | _, _ =>
      match as_number a, as_number b with
      | Some x, Some y => Ok (Z.ltb x y)
      | _, _ => Raise (lt_type_error a b)
      end
  end.

(** ** [sorted(history, key=..., reverse=True)]

    CPython computes every key first (in list order), reverses the list,
    sorts it stably with [<] on the keys (binary insertion sort for short
    lists: an element goes before the first sorted element it is [<]) and
    reverses the result. *)
Fixpoint insert_by_key (kx : json * json) (ys : list (json * json))
  : py_result (list (json * json)) :=
  match ys with
  | [] => Ok [kx]
  | ky :: ys' =>
      match py_lt kx.1 ky.1 with
      | Raise e => Raise e
      | Ok true => Ok (kx :: ys)
      | Ok false =>
          match insert_by_key kx ys' with
          | Raise e => Raise e
          | Ok ys'' => Ok (ky :: ys'')
          end
      end
  end.

Fixpoint insertion_sort (acc : list (json * json)) (xs : list (json * json))
  : py_result (list (json * json)) :=
  match xs with
  | [] => Ok acc
  | x :: xs' =>
      match insert_by_key x acc with
      | Raise e => Raise e
      | Ok acc' => insertion_sort acc' xs'
      end
  end.

Definition sorted_reverse (key : json -> py_result json) (xs : list json)
  : py_result (list json) :=
  keys ← mapM key xs;
  s ← insertion_sort [] (reverse (zip keys xs));
  Ok (reverse (map snd s)).

(** [lambda x: x.get('generatedDate', '')] *)
Definition history_key (x : json) : py_result json :=
  match x with
  | JObj kvs =>
      match assoc_lookup "generatedDate" kvs with
      | Some v => Ok v
      | None => Ok (JStr "")
      end
  | _ => Raise (PyExc "AttributeError" ("'" +:+ type_name x +:+ "' object has no attribute 'get'"))
  end.

(** ** [load_history] *)

(** A directory entry: its name and what reading it as UTF-8 text gives. *)
Record dir_entry := DirEntry { entry_name : string; entry_read : py_result string }.

(** What [os.path.exists(history_path)] and [os.listdir(history_path)]
    give: the path does not exist, the entries in [os.listdir] order, or
    the exception [os.listdir] raises on an existing path (e.g.
    [NotADirectoryError] when [storage/<module>] is a file,
    [PermissionError] when it cannot be read). *)
Inductive dir_state : Type :=
| DirAbsent
| DirListed (entries : list dir_entry)
| DirListError (e : py_exc).

(** [os.listdir] does not raise. *)
Definition listdir_ok (d : dir_state) : bool :=
  match d with DirListError _ => false | _ => true end.

Definition ends_with (suffix s : string) : bool :=
  let n := String.length s in
  let m := String.length suffix in
  (m <=? n)%nat && String.eqb (String.substring (n - m) m s) suffix.

Section History.
Variable json_loads : string -> loads_result.

(** [with open(...) as f: json.load(f)] *)
Definition load_file (e : dir_entry) : py_result json :=
  text ← entry_read e;
  match json_loads text with
  | LoadsOk v => Ok v
  | LoadsDecodeError m => Raise (PyExc "JSONDecodeError" m)
  | LoadsRaises ex => Raise ex
  end.

(** [logger.error(f"Error loading history file {file}: {str(e)}")] *)
Definition history_load_error (f : dir_entry) (e : py_exc) : ui_event :=
  LogError ("Error loading history file " +:+ entry_name f +:+ ": " +:+ exc_msg e).

(** The [for file in history_files: try ... except Exception] loop. *)
Fixpoint read_history_files (files : list dir_entry) : list ui_event * list json :=
  match files with
  | [] => ([], [])
  | f :: files' =>
      let '(log, history) := read_history_files files' in
      match load_file f with
      | Ok v => (log, v :: history)
      | Raise e => (history_load_error f e :: log, history)
      end
  end.

Definition history_files (entries : list dir_entry) : list dir_entry :=
  List.filter (fun e => ends_with ".json" (entry_name e)) entries.

Definition load_history (d : dir_state) : list ui_event * py_result (list json) :=
  match d with
  | DirAbsent => ([], Ok [])
  | DirListError e => ([], Raise e)
  | DirListed entries =>
      let '(log, history) := read_history_files (history_files entries) in
      (log, sorted_reverse history_key history)
  end.
End History.

(** ** Shapes named by the specification *)

(** A contradiction object: exactly the four string fields the prompt asks
    for. *)
Definition is_contradiction_obj (v : json) : Prop :=
  exists d q1 q2 s,
    v = JObj [("description", JStr d); ("quote1", JStr q1);
              ("quote2", JStr q2); ("significance", JStr s)].

Definition not_list_valued (kv : string * json) : Prop :=
  forall xs, kv.2 <> JList xs.

(** A [json.loads] that agrees with Python's on the strings of [tbl]; the
    concrete checks below only feed it those strings. *)
Definition loads_table (tbl : list (string * loads_result)) (s : string) : loads_result :=
  match List.find (fun p => String.eqb p.1 s) tbl with
  | Some p => p.2
  | None => LoadsDecodeError "Expecting value: line 1 column 1 (char 0)"
  end.

(** A backend stub answering every request with one message. *)
Definition stub_backend (answer : option string) (_ : chat_request) : py_result chat_completion :=
  Ok (ChatCompletion [ChatMessage answer]).

(** The [generatedDate] string of a record, [""] when absent. *)
Definition date_key (v : json) : string :=
  match v with
  | JObj kvs =>
      match assoc_lookup "generatedDate" kvs with
      | Some (JStr s) => s
      | _ => ""
      end
  | _ => ""
  end.

(** A record as the application writes it: an object whose [generatedDate],
    when present, is a string. *)
Definition has_string_date (v : json) : Prop :=
  exists kvs, v = JObj kvs /\
    (assoc_lookup "generatedDate" kvs = None \/
     exists s, assoc_lookup "generatedDate" kvs = Some (JStr s)).

(** [a] may come before [b] in newest-first order. *)
Definition newer_or_same (a b : json) : Prop :=
  String.leb (date_key b) (date_key a) = true.

Definition older_or_same (a b : json) : Prop :=
  String.leb (date_key a) (date_key b) = true.

(** The insertion sort of [sorted_reverse] once all keys are strings. *)
Fixpoint date_insert (x : json) (ys : list json) : list json :=
  match ys with
  | [] => [x]
  | y :: ys' => if String.ltb (date_key x) (date_key y) then x :: ys else y :: date_insert x ys'
  end.

Fixpoint date_isort (acc xs : list json) : list json :=
  match xs with
  | [] => acc
  | x :: xs' => date_isort (date_insert x acc) xs'
  end.

Definition dated (x : json) : json * json := (JStr (date_key x), x).

(** The records [load_history] reads from a directory, before sorting. *)
Definition loaded_records (json_loads : string -> loads_result) (d : dir_state) : list json :=
  match d with
  | DirListed es => (read_history_files json_loads (history_files es)).2
  | _ => []
  end.

Definition file_record (json_loads : string -> loads_result) (f : dir_entry) : option json :=
  match load_file json_loads f with Ok v => Some v | Raise _ => None end.

Definition file_error (json_loads : string -> loads_result) (f : dir_entry) : option ui_event :=
  match load_file json_loads f with Ok _ => None | Raise e => Some (history_load_error f e) end.

(** ** Concrete inputs *)

(** Scenario 1 of the specification: one contradiction. *)
Definition scen1_obj : json :=
  JObj [("description", JStr "Время ухода"); ("quote1", JStr "Я ушел в 9 утра");
        ("quote2", JStr "Он вышел не раньше 11"); ("significance", JStr "Средняя")].

Definition scen1_payload : string :=
  "[{" +:+ quoted "description" +:+ ":" +:+ quoted "Время ухода" +:+ "," +:+
  quoted "quote1" +:+ ":" +:+ quoted "Я ушел в 9 утра" +:+ "," +:+
  quoted "quote2" +:+ ":" +:+ quoted "Он вышел не раньше 11" +:+ "," +:+
  quoted "significance" +:+ ":" +:+ quoted "Средняя" +:+ "}]".

(** Scenario 2: [{"contradictions": []}]. *)
Definition scen2_payload : string := "{" +:+ quoted "contradictions" +:+ ": []}".
(** [{"status": "ok"}] *)
Definition status_payload : string := "{" +:+ quoted "status" +:+ ": " +:+ quoted "ok" +:+ "}".
(** [["x", 3]] *)
Definition mixed_payload : string := "[" +:+ quoted "x" +:+ ", 3]".

Definition payload_loads : string -> loads_result :=
  loads_table
    [(scen1_payload, LoadsOk (JList [scen1_obj]));
     (scen2_payload, LoadsOk (JObj [("contradictions", JList [])]));
     (status_payload, LoadsOk (JObj [("status", JStr "ok")]));
     (mixed_payload, LoadsOk (JList [JStr "x"; JNum 3]));
     ("not json", LoadsDecodeError "Expecting value: line 1 column 1 (char 0)")].

(** ['[' * 10**6]: not JSON, and so deeply nested that [json.loads] raises
    [RecursionError] on it rather than [JSONDecodeError]. *)
Definition deep_payload : string :=
  String.string_of_list_ascii (repeat "["%char 1000000).

Definition deep_recursion_error : py_exc :=
  PyExc "RecursionError" "maximum recursion depth exceeded while decoding a JSON array from a unicode string".

Definition deep_loads : string -> loads_result :=
  loads_table [(deep_payload, LoadsRaises deep_recursion_error)].

(** History files: [{"generatedDate": "2024-01-01"}],
    [{"generatedDate": "2025-03-01"}], [{"generatedDate": null}], [{"id": 7}],
    [[]] and the truncated [{]. *)
Definition dated_text (d : string) : string :=
  "{" +:+ quoted "generatedDate" +:+ ": " +:+ quoted d +:+ "}".
Definition null_date_text : string := "{" +:+ quoted "generatedDate" +:+ ": null}".
Definition undated_text : string := "{" +:+ quoted "id" +:+ ": 7}".

Definition history_loads : string -> loads_result :=
  loads_table
    [(dated_text "2024-01-01", LoadsOk (JObj [("generatedDate", JStr "2024-01-01")]));
     (dated_text "2025-03-01", LoadsOk (JObj [("generatedDate", JStr "2025-03-01")]));
     (null_date_text, LoadsOk (JObj [("generatedDate", JNull)]));
     (undated_text, LoadsOk (JObj [("id", JNum 7)]));
     ("[]", LoadsOk (JList []));
     ("{", LoadsDecodeError "Expecting property name enclosed in double quotes: line 1 column 2 (char 1)")].

(** A module directory: two dated records, an undated one, a file that is
    not [.json], an unreadable file and an invalid one. *)
Definition witness_entries : list dir_entry :=
  [DirEntry "a.json" (Ok (dated_text "2024-01-01"));
   DirEntry "notes.txt" (Ok "{");
   DirEntry "b.json" (Ok undated_text);
   DirEntry "c.json" (Raise (PyExc "PermissionError" "[Errno 13] Permission denied: 'storage/x/c.json'"));
   DirEntry "d.json" (Ok "{");
   DirEntry "e.json" (Ok (dated_text "2025-03-01"))].

Definition witness_dir : dir_state := DirListed witness_entries.

(** ** Further functions of [src/app.py] *)

(** *** Python string methods *)

(** [s.startswith(p)] *)
Definition starts_with (p s : string) : bool := String.prefix p s.

(** [sub in s] *)
Definition py_contains (sub s : string) : bool :=
  match String.index 0 sub s with Some _ => true | None => false end.

(** [s.split(sep)] for a non-empty [sep]: the occurrences are taken from
    left to right without overlap ([skip] counts the bytes of the separator
    just matched that are still to pass).  On UTF-8 bytes this is Python's
    split on code points: a UTF-8 separator only matches at a character
    boundary. *)
Fixpoint split_go (sep : string) (skip : nat) (s cur : list ascii) : list string :=
  match s with
  | [] => [String.string_of_list_ascii (rev cur)]
  | c :: s' =>
      match skip with
      | S k => split_go sep k s' cur
      | O =>
          if String.prefix sep (String.string_of_list_ascii s)
          then String.string_of_list_ascii (rev cur) :: split_go sep (pred (String.length sep)) s' []
          else split_go sep O s' (c :: cur)
      end
  end.

Definition py_split (s sep : string) : list string :=
  split_go sep O (String.list_ascii_of_string s) [].

(** [sep.join(xs)] *)
Fixpoint py_join (sep : string) (xs : list string) : string :=
  match xs with
  | [] => ""
  | [x] => x
  | x :: xs' => x +:+ sep +:+ py_join sep xs'
  end.

(** [str(v)] of a JSON value; the [str] of a list or a dict (its [repr]) is
    the library's and is a parameter. *)
Section PyStr.
Variable py_str_container : json -> string.
Definition py_str (v : json) : string :=
  match v with
  | JNull => "None"
  | JBool true => "True"
  | JBool false => "False"
  | JNum z => pretty z
  | JStr s => s
  | JList _ | JObj _ => py_str_container v
  end.
End PyStr.

(** *** [generate_questions] and its caller

    A request made without a [response_format] argument has an empty
    [cr_response_format]. *)
Definition questions_request (contradictions : string) : chat_request :=
  {| cr_model := "gpt-4o-mini";
     cr_messages :=
       [("system", "Вы опытный следователь, формулирующий точные вопросы для устранения противоречий в показаниях.");
        ("user", "На основе следующих противоречий, выявленных в показаниях, сформулируйте список конкретных вопросов для уточнения " +:+
                 "и устранения противоречий:" +:+ nl +:+ nl +:+ contradictions)];
     cr_temperature_tenths := 7;
     cr_response_format := "" |}.

(** The loop [for i, line in enumerate(lines, 1)]. *)
Fixpoint number_lines (i : nat) (lines : list string) : string :=
  match lines with
  | [] => ""
  | line :: lines' =>
      (if String.eqb (py_strip line) "" then "" else pretty i +:+ ". " +:+ py_strip line +:+ nl)
      +:+ number_lines (S i) lines'
  end.

(** [# Ensure result is in list format] *)
Definition format_questions (result : string) : string :=
  if negb (starts_with "1." result) && negb (starts_with "-" result)
  then number_lines 1 (py_split result nl)
  else result.

Definition generate_questions (chat_create : chat_request -> py_result chat_completion)
    (contradictions : string) : list ui_event * option string :=
  match response ← chat_create (questions_request contradictions);
        raw_response_of response with
  | Raise e => ([StError ("Ошибка при формировании вопросов: " +:+ exc_msg e)], None)
  | Ok result => ([], Some (format_questions result))
  end.

(** The list comprehension [[q.strip() for q in s.split(nl) if q.strip()]]. *)
Definition nonblank_lines (s : string) : list string :=
  map py_strip (List.filter (fun l => negb (String.eqb (py_strip l) "")) (py_split s nl)).

(** The caller: [if questions: ... else: st.error(...)]. *)
Definition suggested_questions (questions : option string) : list ui_event * list string :=
  match questions with
  | Some q =>
      if String.eqb q "" then ([StError "Не удалось сгенерировать вопросы."], [])
      else ([], nonblank_lines q)
  | None => ([StError "Не удалось сгенерировать вопросы."], [])
  end.

(** The caller builds its [keyFacts] from the [facts] analysis the same
    way, without checking it for [None]. *)
Definition key_facts (facts_text : option string) : py_result (list string) :=
  match facts_text with
  | Some s => Ok (nonblank_lines s)
  | None => Raise (PyExc "AttributeError" "'NoneType' object has no attribute 'split'")
  end.

(** The caller's [contradictions_text]: one line [- description] per
    contradiction, through [c.get]. *)
Definition contradiction_line (py_str_container : json -> string) (c : json) : py_result string :=
  match c with
  | JObj kvs =>
      Ok ("- " +:+ match assoc_lookup "description" kvs with
                   | Some v => py_str py_str_container v
                   | None => ""
                   end)
  | _ => Raise (PyExc "AttributeError" ("'" +:+ type_name c +:+ "' object has no attribute 'get'"))
  end.

Definition contradictions_text (py_str_container : json -> string) (cs : list json)
  : py_result string :=
  lines ← mapM (contradiction_line py_str_container) cs;
  Ok (py_join nl lines).

(** *** [analyze_transcription] *)

Definition summary_prompt (language : string) : string :=
  "Вы опытный следователь. Суммируйте следующий текст показаний на языке " +:+ language +:+
  ", выделив ключевую информацию:".

Definition analysis_prompts (language : string) : list (string * string) :=
  [("summary", summary_prompt language);
   ("sequence", "Вы следователь, оценивающий последовательность показаний. Проанализируйте текст и выявите нарушения логической последовательности или пропущенные детали:");
   ("facts", "Вы следователь, выделяющий существенные факты. Извлеките из текста ключевые факты, имеющие значение для следствия, в виде списка:")].

(** [prompts.get(analysis_type, prompts[summary])] *)
Definition analysis_prompt (analysis_type language : string) : string :=
  match List.find (fun kv => String.eqb kv.1 analysis_type) (analysis_prompts language) with
  | Some kv => kv.2
  | None => summary_prompt language
  end.

Definition analysis_request (text analysis_type language : string) : chat_request :=
  {| cr_model := "gpt-4o-mini";
     cr_messages := [("system", analysis_prompt analysis_type language); ("user", text)];
     cr_temperature_tenths := 5;
     cr_response_format := "" |}.

Definition analyze_transcription (chat_create : chat_request -> py_result chat_completion)
    (text analysis_type language : string) : list ui_event * option string :=
  match response ← chat_create (analysis_request text analysis_type language);
        raw_response_of response with
  | Raise e => ([StError ("Ошибка при анализе: " +:+ exc_msg e)], None)
  | Ok r => ([], Some r)
  end.

(** *** [generate_case_number] *)

Record datetime := DateTime {
  year : N; month : N; day : N; hour : N; minute : N; second : N }.

(** [%m], [%d], [%H], [%M], [%S]: two digits, zero-padded. *)
Definition pad2 (n : N) : string := if (n <? 10)%N then "0" +:+ pretty n else pretty n.

(** [now.strftime('%Y%m%d-%H%M%S')]; glibc writes [%Y] as the plain
    decimal year. *)
Definition case_stamp (t : datetime) : string :=
  pretty (year t) +:+ pad2 (month t) +:+ pad2 (day t) +:+ "-" +:+
  pad2 (hour t) +:+ pad2 (minute t) +:+ pad2 (second t).

Definition generate_case_number (prefix : string) (now : datetime) : string :=
  prefix +:+ "-" +:+ case_stamp now.

(** *** [create_directories] and [save_history]

    The disk as the directories and the files (path to contents) it holds.
    Paths are taken literally: no component is [.] or [..] and there are no
    links. *)
Record disk := Disk { disk_dirs : gset string; disk_files : gmap string string }.

Definition errno_exc (cls code msg path : string) : py_exc :=
  PyExc cls ("[Errno " +:+ code +:+ "] " +:+ msg +:+ ": '" +:+ path +:+ "'").

(** [Path("storage/" + sub).mkdir(parents=True, exist_ok=True)] *)
Definition mkdir_storage (d : disk) (sub : string) : py_result disk :=
  let p := "storage/" +:+ sub in
  if bool_decide (is_Some (disk_files d !! "storage")) then
    Raise (errno_exc "NotADirectoryError" "20" "Not a directory" p)
  else if bool_decide (is_Some (disk_files d !! p)) then
    Raise (errno_exc "FileExistsError" "17" "File exists" p)
  else Ok {| disk_dirs := {[ p ]} ∪ ({[ "storage" ]} ∪ disk_dirs d); disk_files := disk_files d |}.

Definition storage_subdirs : list string :=
  ["transcriptions"; "planning"; "indictments"; "methodologies"; "evidence"; "temp"].

(** The six calls in one [try]: the first failure skips the rest. *)
Fixpoint mkdirs (d : disk) (subs : list string) : disk * option py_exc :=
  match subs with
  | [] => (d, None)
  | sub :: subs' =>
      match mkdir_storage d sub with
      | Ok d' => mkdirs d' subs'
      | Raise e => (d, Some e)
      end
  end.

Definition create_directories (d : disk) : disk * list ui_event :=
  match mkdirs d storage_subdirs with
  | (d', None) => (d', [])
  | (d', Some e) => (d', [StError ("Ошибка при создании директорий: " +:+ exc_msg e)])
  end.

(** The directories a path goes through: its prefixes before each [/]. *)
Fixpoint ancestors_go (acc : string) (s : list ascii) : list string :=
  match s with
  | [] => []
  | c :: s' =>
      if Ascii.ascii_dec c "/"%char then acc :: ancestors_go (acc +:+ String c EmptyString) s'
      else ancestors_go (acc +:+ String c EmptyString) s'
  end.

Definition ancestors (p : string) : list string := ancestors_go EmptyString (String.list_ascii_of_string p).

(** Path resolution for [open(p, "w")]: the first ancestor that is a file
    or is missing fails the call (the empty prefix is the root). *)
Fixpoint resolve_dirs (d : disk) (ancs : list string) : option py_exc :=
  match ancs with
  | [] => None
  | a :: ancs' =>
      if String.eqb a "" then resolve_dirs d ancs'
      else if bool_decide (is_Some (disk_files d !! a)) then Some (PyExc "NotADirectoryError" "")
      else if bool_decide (a ∈ disk_dirs d) then resolve_dirs d ancs'
      else Some (PyExc "FileNotFoundError" "")
  end.

Definition open_write_error (d : disk) (p : string) : option py_exc :=
  match resolve_dirs d (ancestors p) with
  | Some e =>
      Some (if String.eqb (exc_type e) "NotADirectoryError"
            then errno_exc "NotADirectoryError" "20" "Not a directory" p
            else errno_exc "FileNotFoundError" "2" "No such file or directory" p)
  | None =>
      if bool_decide (p ∈ disk_dirs d) then Some (errno_exc "IsADirectoryError" "21" "Is a directory" p)
      else None
  end.

Section SaveHistory.
(** [json.dump(data, f, ensure_ascii=False, indent=2)]: the text written. *)
Variable json_dumps : json -> string.
Variable py_str_container : json -> string.

(** [data.get('id', datetime.datetime.now().strftime('%Y%m%d%H%M%S'))],
    formatted by the f-string; [now] is the strftime text. *)
Definition history_id (kvs : list (string * json)) (now : string) : string :=
  match assoc_lookup "id" kvs with
  | Some v => py_str py_str_container v
  | None => now
  end.

Definition history_path (module_type id : string) : string :=
  "storage/" +:+ module_type +:+ "/" +:+ module_type +:+ "_" +:+ id +:+ ".json".

Definition save_history (d : disk) (module_type : string) (data : json) (now : string)
  : disk * list ui_event * py_result string :=
  let '(d1, evs) := create_directories d in
  match data with
  | JObj kvs =>
      let filepath := history_path module_type (history_id kvs now) in
      match open_write_error d1 filepath with
      | Some e => (d1, evs, Raise e)
      | None =>
          ({| disk_dirs := disk_dirs d1;
              disk_files := <[filepath := json_dumps data]> (disk_files d1) |}, evs, Ok filepath)
      end
  | _ => (d1, evs, Raise (PyExc "AttributeError" ("'" +:+ type_name data +:+ "' object has no attribute 'get'")))
  end.
End SaveHistory.

(** *** [process_methodology] *)

(** What the [with tempfile.NamedTemporaryFile(...)] block does: the file
    is written, its creation raises, or the write raises after leaving
    [partial] in the file. *)
Inductive tmp_write : Type :=
| TmpWritten (bytes : string)
| TmpCreateError (e : py_exc)
| TmpWriteError (partial : string) (e : py_exc).

Definition methodology_request : chat_request :=
  {| cr_model := "gpt-4o-mini";
     cr_messages :=
       [("system", "Вы эксперт по методикам расследования преступлений.");
        ("user", "Из этой методики расследования выделите ключевые рекомендации, алгоритмы действий и важные моменты, которые следует учитывать при планировании расследования.")];
     cr_temperature_tenths := 3;
     cr_response_format := "" |}.

Definition methodology_error (e : py_exc) : ui_event :=
  StError ("Ошибка при обработке методики: " +:+ exc_msg e).

(** The [finally] clause reads [file_path], which is unbound when the
    [with] block raised (the message is the one of Python 3.11 on). *)
Definition unbound_file_path : py_exc :=
  PyExc "UnboundLocalError" "cannot access local variable 'file_path' where it is not associated with a value".

(** [tmp]: the fresh name [NamedTemporaryFile] picks. *)
Definition process_methodology (chat_create : chat_request -> py_result chat_completion)
    (w : world) (tmp : string) (upload : tmp_write) : world * py_result (option string) :=
  match upload with
  | TmpCreateError e => (emit w [methodology_error e], Raise unbound_file_path)
  | TmpWriteError partial e =>
      (emit {| fs := <[tmp := partial]> (fs w); ui := ui w |} [methodology_error e],
       Raise unbound_file_path)
  | TmpWritten bytes =>
      let w1 := {| fs := <[tmp := bytes]> (fs w); ui := ui w |} in
      let '(w2, r) :=
        match response ← chat_create methodology_request; raw_response_of response with
        | Ok s => (w1, Some s)
        | Raise e => (emit w1 [methodology_error e], None)
        end in
      ((if os_path_exists w2 tmp then os_remove w2 tmp else w2), Ok r)
  end.

(** *** [extract_audio] *)

(** [os.path.splitext(p)]: the extension runs from the last [.] of the
    last path component, unless only dots precede that [.] there. *)
Fixpoint nondot_before (r : list ascii) : bool :=
  match r with
  | [] => false
  | c :: r' =>
      if Ascii.ascii_dec c "/"%char then false
      else if Ascii.ascii_dec c "."%char then nondot_before r' else true
  end.

(** [r] is the path reversed; the result is the length of the extension. *)
Fixpoint ext_len (r : list ascii) (n : nat) : nat :=
  match r with
  | [] => 0
  | c :: r' =>
      if Ascii.ascii_dec c "."%char then (if nondot_before r' then S n else 0)
      else if Ascii.ascii_dec c "/"%char then 0
      else ext_len r' (S n)
  end.

Definition py_splitext (p : string) : string * string :=
  let k := ext_len (rev (String.list_ascii_of_string p)) 0 in
  let n := String.length p in
  (String.substring 0 (n - k) p, String.substring (n - k) k p).

Definition ascii_lower (c : ascii) : ascii :=
  let n := nat_of_ascii c in
  if (65 <=? n) && (n <=? 90) then ascii_of_nat (n + 32) else c.

Definition lower_ascii (s : string) : string :=
  String.string_of_list_ascii (map ascii_lower (String.list_ascii_of_string s)).

(** [uploaded_file.name.lower().endswith(('.mp4', '.avi', '.mov'))].
    Lowering the ASCII letters only gives the same answer: [str.lower] maps
    no other character to a text ending in one of these characters. *)
Definition is_video (name : string) : bool :=
  let n := lower_ascii name in
  ends_with ".mp4" n || ends_with ".avi" n || ends_with ".mov" n.

(** [subprocess.run([ffmpeg, ...], check=True)]: the audio track it wrote,
    or its exit status and what it left at the output path. *)
Inductive ffmpeg_result : Type :=
| FfmpegOk (audio : string)
| FfmpegFails (status : Z) (partial : option string).

(** [str] of the [CalledProcessError]. *)
Definition called_process_msg (input output : string) (status : Z) : string :=
  "Command '['ffmpeg', '-i', '" +:+ input +:+ "', '-q:a', '0', '-map', 'a', '" +:+ output +:+
  "']' returned non-zero exit status " +:+ pretty status +:+ ".".

Section ExtractAudio.
(** [check_ffmpeg()] *)
Variable ffmpeg_available : bool.
(** The conversion, on the bytes of the input file. *)
Variable ffmpeg_run : string -> ffmpeg_result.

(** [tmp_base]: the fresh name [NamedTemporaryFile] picks, before the
    suffix; [upload]: what the [with] block writing
    [uploaded_file.getbuffer()] does.  [input_path] is only assigned after
    that block, so when it raises the handler removes nothing. *)
Definition extract_audio (w : world) (tmp_base name : string) (upload : tmp_write)
  : world * option string :=
  if is_video name && negb ffmpeg_available then
    (emit w [StError "FFmpeg не установлен..."], None)
  else
    let input_path := tmp_base +:+ (py_splitext name).2 in
    match upload with
    | TmpCreateError e => (emit w [StError ("Ошибка при извлечении аудио: " +:+ exc_msg e)], None)
    | TmpWriteError partial e =>
        (emit {| fs := <[input_path := partial]> (fs w); ui := ui w |}
              [StError ("Ошибка при извлечении аудио: " +:+ exc_msg e)], None)
    | TmpWritten bytes =>
    let w1 := {| fs := <[input_path := bytes]> (fs w); ui := ui w |} in
    if is_video name then
      let audio_path := (py_splitext input_path).1 +:+ ".mp3" in
      match ffmpeg_run bytes with
      | FfmpegOk audio =>
          let w2 := {| fs := <[audio_path := audio]> (fs w1); ui := ui w1 |} in
          ((if os_path_exists w2 input_path then os_remove w2 input_path else w2), Some audio_path)
      | FfmpegFails status partial =>
          let w2 := match partial with
                    | Some p => {| fs := <[audio_path := p]> (fs w1); ui := ui w1 |}
                    | None => w1
                    end in
          let w3 := emit w2 [StError ("Ошибка при извлечении аудио: " +:+
                                      called_process_msg input_path audio_path status)] in
          ((if os_path_exists w3 input_path then os_remove w3 input_path else w3), None)
      end
    else (w1, Some input_path)
    end.
End ExtractAudio.

(** The caller: [audio_path = extract_audio(f)], then
    [transcribe_audio(client, audio_path, language)] unconditionally.  With
    [None], [open(None)] raises [TypeError] in the [try] and
    [os.path.exists(None)] raises it again in the [finally] clause. *)
Definition transcribe_upload (transcriptions_create : string -> string -> string -> py_result string)
    (ffmpeg_available : bool) (ffmpeg_run : string -> ffmpeg_result)
    (w : world) (tmp_base name : string) (upload : tmp_write) (language : string)
  : world * py_result (option string) :=
  let '(w1, p) := extract_audio ffmpeg_available ffmpeg_run w tmp_base name upload in
  match p with
  | Some path =>
      let '(w2, r) := transcribe_audio transcriptions_create w1 path language in (w2, Ok r)
  | None =>
      (emit w1 [StError ("Ошибка при транскрибации: " +:+
                         "expected str, bytes or os.PathLike object, not NoneType")],
       Raise (PyExc "TypeError" "stat: path should be string, bytes, os.PathLike or integer, not NoneType"))
  end.

(** *** Parsing in the planning and indictment pages *)

(** [planning_results[legalArticles]]: [classification] is [None] when
    [determine_crime_classification] failed; [in] then raises [TypeError]
    and the bare [except] gives the empty list, as an [IndexError] would. *)
Definition legal_articles (classification : option string) : list string :=
  match classification with
  | None => []
  | Some c =>
      if py_contains "Статьи:" c then
        match py_split c "Статьи:" with
        | _ :: part :: _ => map py_strip (py_split (py_strip part) ",")
        | _ => []
        end
      else []
  end.

(** The defendant named in the indictment, from [suspect_info]. *)
Definition defendant_of (suspect_info : string) : py_result string :=
  match py_split suspect_info nl with
  | l0 :: _ =>
      if py_contains ":" l0 then
        match py_split l0 ":" with
        | _ :: x :: _ => Ok (py_strip x)
        | _ => Raise (PyExc "IndexError" "list index out of range")
        end
      else Ok (py_strip l0)
  | [] => Ok "Подозреваемый"
  end.

(** [st.session_state.evidence_list] across reruns of the indictment
    form. *)
Definition blank_evidence : json := JObj [("type", JStr ""); ("description", JStr "")].

Inductive evidence_click : Type := AddEvidence | RemoveLast.

(** The button removing the last entry is only shown while there are two
    entries or more. *)
Definition evidence_step (l : list json) (c : evidence_click) : list json :=
  match c with
  | AddEvidence => l ++ [blank_evidence]
  | RemoveLast => if (1 <? length l)%nat then removelast l else l
  end.

Definition evidence_session (clicks : list evidence_click) : list json :=
  fold_left evidence_step clicks [blank_evidence].

(** ** Notions used by the further properties *)

(** [n] written with exactly [w] decimal digits. *)
Fixpoint digits (w : nat) (n : N) : string :=
  match w with
  | O => EmptyString
  | S w' => digits w' (n / 10) +:+ String (Ascii.ascii_of_N (48 + n mod 10)) EmptyString
  end.

(** A date and time with a four-digit year. *)
Definition datetime_ok (t : datetime) : Prop :=
  (1000 <= year t <= 9999)%N /\ (1 <= month t <= 12)%N /\ (1 <= day t <= 31)%N /\
  (hour t < 24)%N /\ (minute t < 60)%N /\ (second t < 60)%N.

(** The moment read as the number YYYYMMDDhhmmss. *)
Definition chrono (t : datetime) : N :=
  year t * 10000000000 + month t * 100000000 + day t * 1000000 +
  hour t * 10000 + minute t * 100 + second t.

Definition no_slash (s : string) : Prop :=
  Forall (fun c => c <> "/"%char) (String.list_ascii_of_string s).

(** No file stands where [create_directories] makes a directory. *)
Definition storage_clear (d : disk) : Prop :=
  disk_files d !! "storage" = None /\
  Forall (fun sub => disk_files d !! ("storage/" +:+ sub) = None) storage_subdirs.

(** [es] lists at least the files directly inside [dir]. *)
Definition listing_of (d : disk) (dir : string) (es : list dir_entry) : Prop :=
  forall name c, no_slash name -> disk_files d !! (dir +:+ "/" +:+ name) = Some c ->
  DirEntry name (Ok c) ∈ es.

(** The items [format_questions] writes: the non-blank lines, numbered by
    their position among all lines. *)
Fixpoint numbered_items (i : nat) (lines : list string) : list string :=
  match lines with
  | [] => []
  | l :: ls =>
      if String.eqb (py_strip l) "" then numbered_items (S i) ls
      else (pretty i +:+ ". " +:+ py_strip l) :: numbered_items (S i) ls
  end.

(** The bytes start with an ASCII character that is not white space. *)
Definition ascii_nonspace_head (l : list ascii) : Prop :=
  match l with [] => False | c :: _ => is_py_space c = false end.

(** A byte below 128: a whole ASCII character in UTF-8. *)
Definition is_ascii (c : ascii) : Prop := (nat_of_ascii c < 128)%nat.

(** An ASCII character that is not white space, as the digits are. *)
Definition ascii_digit (c : ascii) : Prop := is_ascii c /\ is_py_space c = false.

(** The [TypeError] of [os.path.exists(None)] in [transcribe_audio]. *)
Definition transcribe_none_error : py_exc :=
  PyExc "TypeError" "stat: path should be string, bytes, os.PathLike or integer, not NoneType".

(** *** Concrete inputs for the further properties *)

(** U+00A0 NO-BREAK SPACE, in UTF-8. *)
Definition nbsp : string := String (Ascii.ascii_of_nat 194) (String (Ascii.ascii_of_nat 160) EmptyString).

(** A reply of two questions separated by a line holding a no-break
    space. *)
Definition witness_questions : string :=
  "Где вы были?" +:+ nl +:+ nbsp +:+ nl +:+ "Кто вас видел?".

Definition witness_moment1 : datetime := DateTime 2024 3 5 7 8 9.
Definition witness_moment2 : datetime := DateTime 2024 3 5 10 0 0.

Definition empty_disk : disk := Disk ∅ ∅.

(** A planning record as the planning page stores it. *)
Definition witness_record (id : string) : json :=
  JObj [("id", JStr id); ("generatedDate", JStr "2024-03-05T07:08:09")].

Definition record_text : string := "{" +:+ quoted "id" +:+ ": " +:+ quoted "42" +:+ "}".
Definition record_dumps (_ : json) : string := record_text.
Definition record_loads : string -> loads_result :=
  loads_table [(record_text, LoadsOk (witness_record "42"))].
Definition container_str (_ : json) : string := "[]".

Definition empty_world : world := World ∅ [].

(** A transcription backend answering every file with one text. *)
Definition witness_transcriber (_ bytes _ : string) : py_result string := Ok "Я был дома.".

(** ** Lemmas on the embedding *)

Lemma first_list_entry_app (pre post : list (string * json)) k l :
  Forall not_list_valued pre ->
  first_list_entry (pre ++ (k, JList l) :: post) = Some (k, l).
Proof.
  induction 1 as [|[k' v] pre Hv _ IH]; [reflexivity|].
  simpl. destruct v; try exact IH.
  exfalso. eapply Hv. reflexivity.
Qed.

Lemma first_list_entry_none (kvs : list (string * json)) :
  Forall not_list_valued kvs -> first_list_entry kvs = None.
Proof.
  induction 1 as [|[k' v] kvs Hv _ IH]; [reflexivity|].
  simpl. destruct v; try exact IH.
  exfalso. eapply Hv. reflexivity.
Qed.

(** Once the call has answered with payload [raw], the outcome is decided by
    [json.loads raw]. *)
Lemma compare_testimonies_payload chat_create json_loads text1 text2 resp raw :
  chat_create (compare_request text1 text2) = Ok resp ->
  raw_response_of resp = Ok raw ->
  compare_testimonies chat_create json_loads text1 text2 =
  match json_loads raw with
  | LoadsOk v => parse_contradictions raw v
  | LoadsDecodeError m =>
      ([StError ("Ошибка декодирования JSON ответа от OpenAI: " +:+ m);
        StWarning "Модель не вернула валидный JSON. Противоречия не будут извлечены.";
        StdoutPrint ("Невалидный JSON от OpenAI: " +:+ raw)], Some [])
  | LoadsRaises e => outer_handler e
  end.
Proof.
  intros Hcall Hraw. unfold compare_testimonies.
  rewrite Hcall. cbn. rewrite Hraw. reflexivity.
Qed.

Lemma compare_testimonies_list chat_create json_loads text1 text2 resp raw l :
  chat_create (compare_request text1 text2) = Ok resp ->
  raw_response_of resp = Ok raw ->
  json_loads raw = LoadsOk (JList l) ->
  compare_testimonies chat_create json_loads text1 text2 = ([], Some l).
Proof.
  intros Hcall Hraw Hl.
  rewrite (compare_testimonies_payload _ _ _ _ _ _ Hcall Hraw), Hl. reflexivity.
Qed.

(** ** Claims on [compare_testimonies] *)

(** C1: when the payload parses as a JSON list of four-field contradiction
    objects, [compare_testimonies] returns exactly that list, in the same
    order, and emits no diagnostic. *)
Theorem compare_returns_parsed_list chat_create json_loads text1 text2 resp raw l :
  chat_create (compare_request text1 text2) = Ok resp ->
  raw_response_of resp = Ok raw ->
  json_loads raw = LoadsOk (JList l) ->
  Forall is_contradiction_obj l ->
  compare_testimonies chat_create json_loads text1 text2 = ([], Some l).
Proof.
  intros Hcall Hraw Hl _. exact (compare_testimonies_list _ _ _ _ _ _ _ Hcall Hraw Hl).
Qed.

(** C9: no element is checked: any JSON list the payload parses to is
    returned as it is, whatever its elements. *)
Theorem compare_no_element_validation chat_create json_loads text1 text2 resp raw l :
  chat_create (compare_request text1 text2) = Ok resp ->
  raw_response_of resp = Ok raw ->
  json_loads raw = LoadsOk (JList l) ->
  snd (compare_testimonies chat_create json_loads text1 text2) = Some l.
Proof.
  intros Hcall Hraw Hl. by rewrite (compare_testimonies_list _ _ _ _ _ _ _ Hcall Hraw Hl).
Qed.

(** C2: when the payload parses as an object, the first list-valued entry
    (in key order) is returned, with one salvage warning naming its key. *)
Theorem compare_salvages_first_list chat_create json_loads text1 text2 resp raw pre k l post :
  chat_create (compare_request text1 text2) = Ok resp ->
  raw_response_of resp = Ok raw ->
  json_loads raw = LoadsOk (JObj (pre ++ (k, JList l) :: post)) ->
  Forall not_list_valued pre ->
  compare_testimonies chat_create json_loads text1 text2 =
  ([StWarning ("Модель вернула JSON-объект вместо списка. Использую список из ключа '" +:+ k +:+ "'.")],
   Some l).
Proof.
  intros Hcall Hraw Hl Hpre.
  rewrite (compare_testimonies_payload _ _ _ _ _ _ Hcall Hraw), Hl. simpl.
  rewrite (first_list_entry_app _ _ _ _ Hpre). reflexivity.
Qed.

(** C3: when the payload parses as an object without list-valued entry, the
    result is the empty list (not [None]), with an error message and the
    raw payload printed. *)
Theorem compare_object_without_list chat_create json_loads text1 text2 resp raw kvs :
  chat_create (compare_request text1 text2) = Ok resp ->
  raw_response_of resp = Ok raw ->
  json_loads raw = LoadsOk (JObj kvs) ->
  Forall not_list_valued kvs ->
  compare_testimonies chat_create json_loads text1 text2 =
  ([StError "Модель вернула корректный JSON, но не в формате списка.";
    StdoutPrint ("Неожиданный JSON от OpenAI: " +:+ raw)], Some []).
Proof.
  intros Hcall Hraw Hl Hkvs.
  rewrite (compare_testimonies_payload _ _ _ _ _ _ Hcall Hraw), Hl. simpl.
  rewrite (first_list_entry_none _ Hkvs). reflexivity.
Qed.

(** C4 fails as stated: the payload ['[' * 10**6] is not JSON, but
    [json.loads] raises [RecursionError] on it; the outer handler catches
    it, so the result is [None], not the empty list, and the raw payload is
    not printed. *)
Lemma compare_deep_payload_unavailable :
  compare_testimonies (stub_backend (Some deep_payload)) deep_loads "a" "b" =
  ([StError ("Ошибка при сравнении показаний: " +:+
             "maximum recursion depth exceeded while decoding a JSON array from a unicode string")],
   None).
Proof. vm_compute. reflexivity. Qed.

(** C4 (amended): when [json.loads] rejects the payload with
    [JSONDecodeError], the result is the empty list, the decode error and
    the raw payload are reported, and no exception escapes. *)
Theorem compare_malformed_payload chat_create json_loads text1 text2 resp raw m :
  chat_create (compare_request text1 text2) = Ok resp ->
  raw_response_of resp = Ok raw ->
  json_loads raw = LoadsDecodeError m ->
  compare_testimonies chat_create json_loads text1 text2 =
  ([StError ("Ошибка декодирования JSON ответа от OpenAI: " +:+ m);
    StWarning "Модель не вернула валидный JSON. Противоречия не будут извлечены.";
    StdoutPrint ("Невалидный JSON от OpenAI: " +:+ raw)], Some []).
Proof.
  intros Hcall Hraw Hl.
  rewrite (compare_testimonies_payload _ _ _ _ _ _ Hcall Hraw), Hl. reflexivity.
Qed.

Lemma parse_contradictions_some raw v : snd (parse_contradictions raw v) <> None.
Proof.
  destruct v as [| | | | |kvs]; try discriminate.
  simpl. destruct (first_list_entry kvs) as [[k l]|]; discriminate.
Qed.

(** C5 fails as stated: the call answers normally, but with a message whose
    [content] is [None] ([.strip()] raises [AttributeError]); the result is
    then [None] although the remote call did not fail. *)
Lemma compare_none_without_call_failure :
  snd (compare_testimonies (stub_backend None) (loads_table []) "a" "b") = None /\
  (forall e, stub_backend None (compare_request "a" "b") <> Raise e).
Proof. split; [vm_compute; reflexivity | discriminate]. Qed.

(** C5 (amended): [compare_testimonies] returns [None] (which differs from
    the empty list) exactly when an exception other than [JSONDecodeError]
    reaches the outer handler: the remote call raises, the answer has no
    first choice or a [None] content, or [json.loads] raises another
    exception; in every other case it returns a list. *)
Theorem compare_none_iff_exception chat_create json_loads text1 text2 :
  snd (compare_testimonies chat_create json_loads text1 text2) = None <->
  (exists e, chat_create (compare_request text1 text2) = Raise e) \/
  (exists resp e, chat_create (compare_request text1 text2) = Ok resp /\
                  raw_response_of resp = Raise e) \/
  (exists resp raw e, chat_create (compare_request text1 text2) = Ok resp /\
                      raw_response_of resp = Ok raw /\ json_loads raw = LoadsRaises e).
Proof.
  unfold compare_testimonies.
  destruct (chat_create (compare_request text1 text2)) as [resp|e] eqn:Hcall; cbn.
  - destruct (raw_response_of resp) as [raw|e] eqn:Hraw.
    + destruct (json_loads raw) as [v|m|e] eqn:Hl.
      * split; [intros H; by apply parse_contradictions_some in H|].
        intros [[e He]|[[r [e [He Hr]]]|[r [raw' [e [He [Hr Hl']]]]]]]; try discriminate;
          injection He as <-; rewrite Hraw in Hr; try discriminate.
        injection Hr as <-. congruence.
      * split; [discriminate|].
        intros [[e He]|[[r [e [He Hr]]]|[r [raw' [e [He [Hr Hl']]]]]]]; try discriminate;
          injection He as <-; rewrite Hraw in Hr; try discriminate.
        injection Hr as <-. congruence.
      * split; [intros _; right; right; exists resp, raw, e; auto|intros _; reflexivity].
    + split; [intros _; right; left; exists resp, e; auto|intros _; reflexivity].
  - split; [intros _; left; exists e; auto|intros _; reflexivity].
Qed.

(** C8: with a fixed backend, two successive invocations on the same texts
    return the same result; the result does not depend on the application
    state, no file changes, and the only effect is the same list of
    diagnostics appended each time. *)
Theorem compare_idempotent chat_create json_loads w text1 text2 :
  let '(w1, r1) := compare_testimonies_in chat_create json_loads w text1 text2 in
  let '(w2, r2) := compare_testimonies_in chat_create json_loads w1 text1 text2 in
  r1 = r2 /\ fs w1 = fs w /\ fs w2 = fs w /\
  (exists evs, ui w1 = ui w ++ evs /\ ui w2 = ui w1 ++ evs) /\
  (forall w', snd (compare_testimonies_in chat_create json_loads w' text1 text2) = r1).
Proof.
  unfold compare_testimonies_in.
  destruct (compare_testimonies chat_create json_loads text1 text2) as [evs r].
  simpl. eauto 10.
Qed.

(** ** Claim on [transcribe_audio] *)

(** C6: whatever happens (transcription returned, the API raised, the file
    could not be opened), the audio file is gone from the file system when
    [transcribe_audio] returns and no other file changes; the UI only gains
    messages. *)
Theorem transcribe_audio_removes_file transcriptions_create w audio_file language :
  fs (transcribe_audio transcriptions_create w audio_file language).1 =
    delete audio_file (fs w) /\
  exists evs, ui (transcribe_audio transcriptions_create w audio_file language).1 = ui w ++ evs.
Proof.
  unfold transcribe_audio, transcribe_try, os_path_exists, os_remove.
  destruct (fs w !! audio_file) as [bytes|] eqn:Hf.
  - destruct (transcriptions_create "whisper-1" bytes language) as [text|e]; simpl;
      rewrite ?Hf; simpl; split; eauto.
    exists []. by rewrite app_nil_r.
  - simpl. rewrite Hf. simpl. split; [by rewrite delete_id|eauto].
Qed.

(** ** Lemmas on [sorted_reverse] and [load_history] *)

Lemma ltb_true_leb a b : String.ltb a b = true -> String.leb a b = true.
Proof. unfold String.ltb, String.leb. by destruct (String.compare a b). Qed.

Lemma ltb_false_leb a b : String.ltb a b = false -> String.leb b a = true.
Proof.
  unfold String.ltb, String.leb. rewrite (String.compare_antisym b a).
  by destruct (String.compare a b).
Qed.

Lemma mapM_history_key xs :
  Forall has_string_date xs ->
  mapM history_key xs = Ok (map (fun x => JStr (date_key x)) xs).
Proof.
  induction 1 as [|x xs [kvs [-> Hd]] _ IH]; [reflexivity|].
  cbn [mapM map]. rewrite IH. unfold history_key, date_key.
  destruct Hd as [Hn|[s Hs]]; [rewrite Hn|rewrite Hs]; reflexivity.
Qed.

Lemma zip_keys (xs : list json) :
  zip (map (fun x => JStr (date_key x)) xs) xs = map dated xs.
Proof. induction xs as [|x xs IH]; simpl; [done|by rewrite IH]. Qed.

Lemma map_reverse {A B} (f : A -> B) (l : list A) : map f (reverse l) = reverse (map f l).
Proof.
  induction l as [|x l IH]; [done|].
  rewrite reverse_cons, map_app, IH. cbn [map]. by rewrite reverse_cons.
Qed.

Lemma insert_by_key_dated x ys :
  insert_by_key (dated x) (map dated ys) = Ok (map dated (date_insert x ys)).
Proof.
  induction ys as [|y ys IH]; [done|].
  simpl. destruct (String.ltb (date_key x) (date_key y)); [done|].
  by rewrite IH.
Qed.

Lemma insertion_sort_dated acc xs :
  insertion_sort (map dated acc) (map dated xs) = Ok (map dated (date_isort acc xs)).
Proof.
  revert acc. induction xs as [|x xs IH]; intros acc; [done|].
  simpl. rewrite insert_by_key_dated. apply IH.
Qed.

Lemma map_snd_dated l : map snd (map dated l) = l.
Proof. induction l as [|x l IH]; simpl; [done|by rewrite IH]. Qed.

(** When every record carries a string date (or none), the sort raises
    nothing and is [date_isort] on the reversed list, reversed. *)
Lemma sorted_reverse_dates xs :
  Forall has_string_date xs ->
  sorted_reverse history_key xs = Ok (reverse (date_isort [] (reverse xs))).
Proof.
  intros Hxs. unfold sorted_reverse.
  rewrite (mapM_history_key _ Hxs). cbn [mbind py_result_bind].
  rewrite zip_keys, <- map_reverse.
  change (@nil (json * json)) with (map dated []).
  rewrite insertion_sort_dated. cbn [mbind py_result_bind].
  by rewrite map_snd_dated.
Qed.

Lemma date_insert_perm x ys : date_insert x ys ≡ₚ x :: ys.
Proof.
  induction ys as [|y ys IH]; [done|].
  simpl. destruct (String.ltb (date_key x) (date_key y)); [done|].
  rewrite IH. constructor.
Qed.

Lemma date_isort_perm acc xs : date_isort acc xs ≡ₚ acc ++ xs.
Proof.
  revert acc. induction xs as [|x xs IH]; intros acc; simpl.
  - by rewrite app_nil_r.
  - rewrite IH, date_insert_perm. simpl. apply Permutation_middle.
Qed.

Lemma date_insert_hd y x ys :
  older_or_same y x -> HdRel older_or_same y ys -> HdRel older_or_same y (date_insert x ys).
Proof.
  intros Hyx Hhd. destruct ys as [|z zs]; simpl.
  - by constructor.
  - destruct (String.ltb (date_key x) (date_key z)); constructor; [done|].
    by inversion Hhd.
Qed.

Lemma date_insert_sorted x ys :
  Sorted older_or_same ys -> Sorted older_or_same (date_insert x ys).
Proof.
  induction 1 as [|y ys Hs IH Hhd]; simpl; [by repeat constructor|].
  destruct (String.ltb (date_key x) (date_key y)) eqn:Hlt.
  - constructor; [by constructor|]. constructor. by apply ltb_true_leb.
  - constructor; [done|]. apply date_insert_hd; [|done].
    by apply ltb_false_leb.
Qed.

Lemma date_isort_sorted acc xs :
  Sorted older_or_same acc -> Sorted older_or_same (date_isort acc xs).
Proof.
  revert acc. induction xs as [|x xs IH]; intros acc Hacc; simpl; [done|].
  apply IH. by apply date_insert_sorted.
Qed.

Lemma read_history_files_split json_loads files :
  read_history_files json_loads files =
  (omap (file_error json_loads) files, omap (file_record json_loads) files).
Proof.
  induction files as [|f files IH]; [done|].
  simpl. rewrite IH. unfold file_error, file_record.
  by destruct (load_file json_loads f).
Qed.

(** The sort step of [load_history], for records as the application
    writes them. *)
Lemma load_history_sort_ok json_loads d :
  listdir_ok d = true ->
  Forall has_string_date (loaded_records json_loads d) ->
  exists out, (load_history json_loads d).2 = Ok out /\
    out ≡ₚ loaded_records json_loads d /\ Sorted newer_or_same out.
Proof.
  destruct d as [|es|e]; simpl; intros Hok Hrecs; [|clear Hok|discriminate].
  - exists []. split; [done|split; [done|constructor]].
  - destruct (read_history_files json_loads (history_files es)) as [log recs] eqn:Hr.
    simpl in *. rewrite (sorted_reverse_dates _ Hrecs).
    eexists; split; [reflexivity|split].
    + by rewrite reverse_Permutation, date_isort_perm, reverse_Permutation.
    + change newer_or_same with (flip older_or_same).
      apply Sorted_reverse, date_isort_sorted. constructor.
Qed.

(** The key function is applied to every record before any comparison:
    a record that is not an object makes [sorted] raise [AttributeError]. *)
Lemma mapM_history_key_non_object xs :
  Exists (fun v => forall kvs, v <> JObj kvs) xs ->
  exists m, mapM history_key xs = Raise (PyExc "AttributeError" m).
Proof.
  induction xs as [|x xs IH]; intros Hex; [by apply Exists_nil in Hex|].
  cbn [mapM]. destruct x as [| | | | |kvs].
  1-5: eexists; reflexivity.
  apply Exists_cons in Hex as [Hx|Hex]; [by destruct (Hx kvs)|].
  destruct (IH Hex) as [m Hm]. rewrite Hm. unfold history_key.
  destruct (assoc_lookup "generatedDate" kvs); eexists; reflexivity.
Qed.

Lemma sorted_reverse_non_object xs :
  Exists (fun v => forall kvs, v <> JObj kvs) xs ->
  exists m, sorted_reverse history_key xs = Raise (PyExc "AttributeError" m).
Proof.
  intros Hex. destruct (mapM_history_key_non_object xs Hex) as [m Hm].
  exists m. unfold sorted_reverse. rewrite Hm. reflexivity.
Qed.


(** ** Claims on [load_history] *)

(** C7 fails as stated: two stored objects, one dated ["2024-01-01"], one
    with [generatedDate: null]; [sorted] compares the keys and raises
    [TypeError] instead of returning the records. *)
Lemma load_history_null_date_raises :
  load_history history_loads
    (DirListed [DirEntry "a.json" (Ok (dated_text "2024-01-01"));
                DirEntry "b.json" (Ok null_date_text)]) =
  ([], Raise (PyExc "TypeError" "'<' not supported between instances of 'str' and 'NoneType'")).
Proof. vm_compute. reflexivity. Qed.

(** C7 (amended): when [os.listdir] does not raise and every record read
    from the module directory is an object whose [generatedDate], if
    present, is a string, [load_history] returns exactly those records (up
    to order) sorted by [generatedDate] newest first, a record without the
    field counting as [""]. *)
Theorem load_history_sorted_newest_first json_loads d :
  listdir_ok d = true ->
  Forall has_string_date (loaded_records json_loads d) ->
  exists out, (load_history json_loads d).2 = Ok out /\
    out ≡ₚ loaded_records json_loads d /\ Sorted newer_or_same out.
Proof. apply load_history_sort_ok. Qed.

(** C10 fails as stated: next to an invalid [a.json] (skipped, logged), a
    readable [b.json] holding the JSON list [[]] makes the key function raise
    [AttributeError], so nothing is returned. *)
Lemma load_history_list_record_raises :
  load_history history_loads
    (DirListed [DirEntry "a.json" (Ok "{"); DirEntry "b.json" (Ok "[]")]) =
  ([LogError "Error loading history file a.json: Expecting property name enclosed in double quotes: line 1 column 2 (char 1)"],
   Raise (PyExc "AttributeError" "'list' object has no attribute 'get'")).
Proof. vm_compute. reflexivity. Qed.

(** C10 (amended): an absent directory gives [[]], and the exception of
    a failing [os.listdir] propagates.  Otherwise each [.json] file that
    cannot be opened, read or parsed is skipped with one logged error, the
    records of the other [.json] files (in listing order) are the ones
    sorted; when they are objects with a string or missing [generatedDate]
    they are returned without any exception, and when one of them is not a
    JSON object the sort raises [AttributeError]. *)
Theorem load_history_skips_failing_files json_loads :
  load_history json_loads DirAbsent = ([], Ok []) /\
  (forall e, load_history json_loads (DirListError e) = ([], Raise e)) /\
  forall entries,
    (load_history json_loads (DirListed entries)).1 =
      omap (file_error json_loads) (history_files entries) /\
    loaded_records json_loads (DirListed entries) =
      omap (file_record json_loads) (history_files entries) /\
    (Forall has_string_date (loaded_records json_loads (DirListed entries)) ->
     exists out, (load_history json_loads (DirListed entries)).2 = Ok out /\
       out ≡ₚ loaded_records json_loads (DirListed entries)) /\
    (Exists (fun v => forall kvs, v <> JObj kvs) (loaded_records json_loads (DirListed entries)) ->
     exists m, (load_history json_loads (DirListed entries)).2 = Raise (PyExc "AttributeError" m)).
Proof.
  split; [reflexivity|]. split; [reflexivity|]. intros entries.
  pose proof (read_history_files_split json_loads (history_files entries)) as Hsplit.
  split; [|split; [|split]].
  - simpl. by rewrite Hsplit.
  - simpl. by rewrite Hsplit.
  - intros Hrecs. destruct (load_history_sort_ok json_loads (DirListed entries) eq_refl Hrecs)
      as (out & Hout & Hperm & _). eauto.
  - simpl. destruct (read_history_files json_loads (history_files entries)) as [log recs].
    simpl. apply sorted_reverse_non_object.
Qed.

(** ** Witnesses: the theorems' hypotheses hold on concrete inputs *)

Lemma compare_returns_parsed_list_witness :
  compare_testimonies (stub_backend (Some scen1_payload)) payload_loads
    "Я ушел в 9 утра" "Он вышел не раньше 11" = ([], Some [scen1_obj]).
Proof.
  apply (compare_returns_parsed_list _ _ _ _
           (ChatCompletion [ChatMessage (Some scen1_payload)]) scen1_payload).
  - reflexivity.
  - vm_compute. reflexivity.
  - vm_compute. reflexivity.
  - constructor; [|constructor]. unfold is_contradiction_obj, scen1_obj. eauto.
Defined.

Lemma compare_no_element_validation_witness :
  snd (compare_testimonies (stub_backend (Some (" " +:+ mixed_payload +:+ nl))) payload_loads "a" "b")
  = Some [JStr "x"; JNum 3].
Proof.
  apply (compare_no_element_validation _ _ _ _
           (ChatCompletion [ChatMessage (Some (" " +:+ mixed_payload +:+ nl))]) mixed_payload).
  - reflexivity.
  - vm_compute. reflexivity.
  - vm_compute. reflexivity.
Defined.

Lemma compare_salvages_first_list_witness :
  compare_testimonies (stub_backend (Some scen2_payload)) payload_loads "a" "b" =
  ([StWarning ("Модель вернула JSON-объект вместо списка. Использую список из ключа '" +:+
               "contradictions" +:+ "'.")], Some []).
Proof.
  apply (compare_salvages_first_list _ _ _ _
           (ChatCompletion [ChatMessage (Some scen2_payload)]) scen2_payload [] "contradictions" [] []).
  - reflexivity.
  - vm_compute. reflexivity.
  - vm_compute. reflexivity.
  - constructor.
Defined.

Lemma compare_object_without_list_witness :
  compare_testimonies (stub_backend (Some status_payload)) payload_loads "a" "b" =
  ([StError "Модель вернула корректный JSON, но не в формате списка.";
    StdoutPrint ("Неожиданный JSON от OpenAI: " +:+ status_payload)], Some []).
Proof.
  apply (compare_object_without_list _ _ _ _
           (ChatCompletion [ChatMessage (Some status_payload)]) status_payload
           [("status", JStr "ok")]).
  - reflexivity.
  - vm_compute. reflexivity.
  - vm_compute. reflexivity.
  - constructor; [|constructor]. intros xs. discriminate.
Defined.

Lemma compare_malformed_payload_witness :
  compare_testimonies (stub_backend (Some "not json")) payload_loads "a" "b" =
  ([StError ("Ошибка декодирования JSON ответа от OpenAI: " +:+ "Expecting value: line 1 column 1 (char 0)");
    StWarning "Модель не вернула валидный JSON. Противоречия не будут извлечены.";
    StdoutPrint ("Невалидный JSON от OpenAI: " +:+ "not json")], Some []).
Proof.
  apply (compare_malformed_payload _ _ _ _
           (ChatCompletion [ChatMessage (Some "not json")]) "not json").
  - reflexivity.
  - vm_compute. reflexivity.
  - vm_compute. reflexivity.
Defined.

Lemma witness_dir_string_dates :
  Forall has_string_date (loaded_records history_loads witness_dir).
Proof.
  vm_compute.
  repeat constructor; eexists; (split; [reflexivity|]);
    solve [left; reflexivity | right; eexists; reflexivity].
Qed.

Lemma load_history_sorted_newest_first_witness :
  exists out, (load_history history_loads witness_dir).2 = Ok out /\
    out ≡ₚ loaded_records history_loads witness_dir /\ Sorted newer_or_same out.
Proof.
  apply load_history_sorted_newest_first; [reflexivity|apply witness_dir_string_dates].
Defined.

Lemma load_history_skips_failing_files_witness :
  (load_history history_loads witness_dir).1 =
    omap (file_error history_loads) (history_files witness_entries) /\
  exists out, (load_history history_loads witness_dir).2 = Ok out /\
    out ≡ₚ loaded_records history_loads witness_dir.
Proof.
  destruct (load_history_skips_failing_files history_loads) as (_ & _ & H).
  destruct (H witness_entries) as (H1 & _ & H3 & _).
  split; [exact H1|]. apply H3. apply witness_dir_string_dates.
Defined.

(** The directory above, evaluated: newest first, the undated record last,
    the two failing [.json] files logged. *)
Example load_history_witness_dir :
  load_history history_loads witness_dir =
  ([LogError "Error loading history file c.json: [Errno 13] Permission denied: 'storage/x/c.json'";
    LogError "Error loading history file d.json: Expecting property name enclosed in double quotes: line 1 column 2 (char 1)"],
   Ok [JObj [("generatedDate", JStr "2025-03-01")];
       JObj [("generatedDate", JStr "2024-01-01")];
       JObj [("id", JNum 7)]]).
Proof. vm_compute. reflexivity. Qed.

(** ** Lemmas on strings, [split] and [strip] *)

Lemma string_app_cons c (s t : string) : String c s +:+ t = String c (s +:+ t).
Proof. reflexivity. Qed.

Lemma string_app_nil (t : string) : EmptyString +:+ t = t.
Proof. reflexivity. Qed.

Lemma list_ascii_app (a b : string) :
  String.list_ascii_of_string (a +:+ b) =
  String.list_ascii_of_string a ++ String.list_ascii_of_string b.
Proof. induction a as [|c a IH]; [done|]. rewrite string_app_cons. simpl. by rewrite IH. Qed.

Lemma string_of_list_ascii_app (l1 l2 : list ascii) :
  String.string_of_list_ascii (l1 ++ l2) =
  String.string_of_list_ascii l1 +:+ String.string_of_list_ascii l2.
Proof. induction l1 as [|c l1 IH]; [done|]. simpl. rewrite IH. done. Qed.

Lemma string_app_assoc (a b c : string) : a +:+ (b +:+ c) = (a +:+ b) +:+ c.
Proof. induction a as [|x a IH]; [done|]. rewrite !string_app_cons, IH. done. Qed.

Lemma list_ascii_inj (a b : string) :
  String.list_ascii_of_string a = String.list_ascii_of_string b -> a = b.
Proof.
  intros H. rewrite <- (String.string_of_list_ascii_of_string a),
    <- (String.string_of_list_ascii_of_string b), H. done.
Qed.

(** Splitting on a one-character separator. *)
Section Split1.
Variable c : ascii.


Lemma split1_cons x s cur :
  split_go (String c EmptyString) 0 (x :: s) cur =
  if Ascii.ascii_dec c x then String.string_of_list_ascii (rev cur) :: split_go (String c EmptyString) 0 s []
  else split_go (String c EmptyString) 0 s (x :: cur).
Proof. simpl. destruct (Ascii.ascii_dec c x); [|done]. by destruct (String.string_of_list_ascii s). Qed.

Lemma split1_free xs s cur :
  Forall (fun x => x <> c) xs ->
  split_go (String c EmptyString) 0 (xs ++ s) cur = split_go (String c EmptyString) 0 s (rev xs ++ cur).
Proof.
  intros Hxs. revert cur. induction Hxs as [|x xs Hx _ IH]; intros cur; [done|].
  simpl app. rewrite split1_cons. destruct (Ascii.ascii_dec c x) as [->|_]; [done|].
  rewrite IH. simpl. by rewrite <- app_assoc.
Qed.

Lemma split1_at xs s cur :
  Forall (fun x => x <> c) xs ->
  split_go (String c EmptyString) 0 (xs ++ c :: s) cur =
  String.string_of_list_ascii (rev cur ++ xs) :: split_go (String c EmptyString) 0 s [].
Proof.
  intros Hxs. rewrite split1_free by done. rewrite split1_cons.
  destruct (Ascii.ascii_dec c c) as [_|n]; [|done].
  by rewrite rev_app_distr, rev_involutive.
Qed.

Lemma split1_end xs cur :
  Forall (fun x => x <> c) xs ->
  split_go (String c EmptyString) 0 xs cur = [String.string_of_list_ascii (rev cur ++ xs)].
Proof.
  intros Hxs. rewrite <- (app_nil_r xs) at 1. rewrite split1_free by done.
  simpl. by rewrite rev_app_distr, rev_involutive.
Qed.

Lemma split1_pieces s cur :
  Forall (fun x => x <> c) cur ->
  Forall (fun p => Forall (fun x => x <> c) (String.list_ascii_of_string p)) (split_go (String c EmptyString) 0 s cur).
Proof.
  revert cur. induction s as [|x s IH]; intros cur Hcur.
  - simpl. constructor; [|done]. rewrite String.list_ascii_of_string_of_list_ascii.
    by apply Forall_rev.
  - rewrite split1_cons. destruct (Ascii.ascii_dec c x) as [->|n].
    + constructor; [|by apply IH].
      rewrite String.list_ascii_of_string_of_list_ascii. by apply Forall_rev.
    + apply IH. constructor; [congruence|done].
Qed.

End Split1.

Lemma split_go_nonempty sep s skip cur : split_go sep skip s cur <> [].
Proof.
  revert skip cur. induction s as [|x s IH]; intros [|k] cur; simpl; try done.
  case_match; done.
Qed.

(** A separator that occurs gives two pieces or more. *)
Lemma split_go_index sep s cur n :
  sep <> EmptyString ->
  String.index 0 sep (String.string_of_list_ascii s) = Some n ->
  exists p q r, split_go sep 0 s cur = p :: q :: r.
Proof.
  intros Hsep. destruct sep as [|a sep']; [done|].
  revert cur n. induction s as [|x s IH]; intros cur n Hn; [done|].
  assert (Hrest : forall cur', (exists m, String.index 0 (String a sep') (String.string_of_list_ascii s) = Some m) ->
            exists p q r, split_go (String a sep') 0 s cur' = p :: q :: r).
  { intros cur' [m Hm]. exact (IH cur' m Hm). }
  simpl in Hn |- *. destruct (Ascii.ascii_dec a x).
  - destruct (String.prefix sep' (String.string_of_list_ascii s)).
    + destruct (split_go (String a sep') (String.length sep') s []) as [|q r] eqn:E.
      * by apply split_go_nonempty in E.
      * eauto.
    + apply Hrest. destruct (String.index 0 (String a sep') (String.string_of_list_ascii s)); eauto; done.
  - apply Hrest. destruct (String.index 0 (String a sep') (String.string_of_list_ascii s)); eauto; done.
Qed.


Lemma rstrip_rev_step c r1 :
  rstrip_rev (c :: r1) =
  if is_py_space c then rstrip_rev r1 else
  match r1 with
  | [] => [c]
  | b :: r2 =>
      if is_py_space2 b c then rstrip_rev r2 else
      match r2 with
      | [] => [c; b]
      | a :: r3 => if is_py_space3 a b c then rstrip_rev r3 else c :: b :: a :: r3
      end
  end.
Proof. destruct r1 as [|? [|? ?]]; reflexivity. Qed.

Lemma lstrip_suffix l : exists pre, l = pre ++ lstrip_bytes l.
Proof.
  induction l as [l IH] using (induction_ltof1 _ (@length ascii)); unfold ltof in IH.
  destruct l as [|a [|b [|c l3]]]; simpl.
  - by exists [].
  - destruct (is_py_space a); [exists [a]|exists []]; done.
  - destruct (is_py_space a).
    { destruct (IH [b]) as [pre Hp]; [simpl; lia|]. exists (a :: pre). simpl. by f_equal. }
    destruct (is_py_space2 a b); [exists [a; b]|exists []]; done.
  - destruct (is_py_space a).
    { destruct (IH (b :: c :: l3)) as [pre Hp]; [simpl; lia|]. exists (a :: pre). simpl. by f_equal. }
    destruct (is_py_space2 a b).
    { destruct (IH (c :: l3)) as [pre Hp]; [simpl; lia|]. exists (a :: b :: pre). simpl. by do 2 f_equal. }
    destruct (is_py_space3 a b c).
    { destruct (IH l3) as [pre Hp]; [simpl; lia|]. exists (a :: b :: c :: pre). simpl. by do 3 f_equal. }
    by exists [].
Qed.

Lemma rstrip_suffix r : exists pre, r = pre ++ rstrip_rev r.
Proof.
  induction r as [r IH] using (induction_ltof1 _ (@length ascii)); unfold ltof in IH.
  destruct r as [|c [|b [|a r3]]]; simpl.
  - by exists [].
  - destruct (is_py_space c); [exists [c]|exists []]; done.
  - destruct (is_py_space c).
    { destruct (IH [b]) as [pre Hp]; [simpl; lia|]. exists (c :: pre). simpl. by f_equal. }
    destruct (is_py_space2 b c); [exists [c; b]|exists []]; done.
  - destruct (is_py_space c).
    { destruct (IH (b :: a :: r3)) as [pre Hp]; [simpl; lia|]. exists (c :: pre). simpl. by f_equal. }
    destruct (is_py_space2 b c).
    { destruct (IH (a :: r3)) as [pre Hp]; [simpl; lia|]. exists (c :: b :: pre). simpl. by do 2 f_equal. }
    destruct (is_py_space3 a b c).
    { destruct (IH r3) as [pre Hp]; [simpl; lia|]. exists (c :: b :: a :: pre). simpl. by do 3 f_equal. }
    by exists [].
Qed.

Lemma rstrip_rev_idem r : rstrip_rev (rstrip_rev r) = rstrip_rev r.
Proof.
  induction r as [r IH] using (induction_ltof1 _ (@length ascii)); unfold ltof in IH.
  destruct r as [|c [|b [|a r3]]]; [done| | |].
  - simpl. destruct (is_py_space c) eqn:E1; [done|]. simpl. by rewrite E1.
  - cbn [rstrip_rev]. destruct (is_py_space c) eqn:E1; [apply (IH [b]); simpl; lia|].
    destruct (is_py_space2 b c) eqn:E2; [done|]. cbn [rstrip_rev]. by rewrite E1, E2.
  - cbn [rstrip_rev]. destruct (is_py_space c) eqn:E1; [apply (IH (b :: a :: r3)); simpl; lia|].
    destruct (is_py_space2 b c) eqn:E2; [apply (IH (a :: r3)); simpl; lia|].
    destruct (is_py_space3 a b c) eqn:E3; [apply IH; simpl; lia|].
    cbn [rstrip_rev]. by rewrite E1, E2, E3.
Qed.

Lemma is_py_space2_ascii a b : is_ascii a -> is_py_space2 a b = false.
Proof.
  unfold is_py_space2, is_ascii. intros H.
  destruct (Nat.eqb_spec (nat_of_ascii a) 194); [lia|done].
Qed.

Lemma is_py_space3_ascii_l a b c : is_ascii a -> is_py_space3 a b c = false.
Proof.
  unfold is_py_space3, is_ascii. intros H.
  destruct (Nat.eqb_spec (nat_of_ascii a) 225); [lia|].
  destruct (Nat.eqb_spec (nat_of_ascii a) 226); [lia|].
  destruct (Nat.eqb_spec (nat_of_ascii a) 227); [lia|].
  reflexivity.
Qed.

Lemma is_py_space3_ascii_m a b c : is_ascii b -> is_py_space3 a b c = false.
Proof.
  unfold is_py_space3, is_ascii. intros H.
  destruct (Nat.eqb_spec (nat_of_ascii b) 154); [lia|].
  destruct (Nat.eqb_spec (nat_of_ascii b) 128); [lia|].
  destruct (Nat.eqb_spec (nat_of_ascii b) 129); [lia|].
  rewrite !andb_false_r. reflexivity.
Qed.

(** ASCII bytes written before a text that ends without white space do
    not change that (on the reversed bytes: after it). *)
Lemma rstrip_rev_app_ascii r t :
  rstrip_rev r = r -> r <> [] -> Forall is_ascii t -> rstrip_rev (r ++ t) = r ++ t.
Proof.
  intros Hr Hne Ht.
  assert (Hlen : forall r', length (rstrip_rev r') <= length r').
  { intros r'. destruct (rstrip_suffix r') as [pre Hp].
    rewrite Hp at 2. rewrite length_app. lia. }
  destruct r as [|c [|b [|a r3]]]; [done| | |].
  - rewrite rstrip_rev_step in Hr. destruct (is_py_space c) eqn:E1; [discriminate Hr|].
    simpl app. rewrite rstrip_rev_step. rewrite E1.
    destruct t as [|b t]; [done|]. inversion Ht as [|? ? Hb Ht']; subst.
    rewrite is_py_space2_ascii by done.
    destruct t as [|a t]; [done|]. rewrite is_py_space3_ascii_m by done. done.
  - rewrite rstrip_rev_step in Hr. destruct (is_py_space c) eqn:E1.
    { pose proof (Hlen [b]) as H. rewrite Hr in H. simpl in H. lia. }
    destruct (is_py_space2 b c) eqn:E2; [discriminate Hr|].
    simpl app. rewrite rstrip_rev_step. rewrite E1, E2.
    destruct t as [|a t]; [done|]. inversion Ht; subst.
    rewrite is_py_space3_ascii_l by done. done.
  - rewrite rstrip_rev_step in Hr. destruct (is_py_space c) eqn:E1.
    { pose proof (Hlen (b :: a :: r3)) as H. rewrite Hr in H. simpl in H. lia. }
    destruct (is_py_space2 b c) eqn:E2.
    { pose proof (Hlen (a :: r3)) as H. rewrite Hr in H. simpl in H. lia. }
    destruct (is_py_space3 a b c) eqn:E3.
    { pose proof (Hlen r3) as H. rewrite Hr in H. simpl in H. lia. }
    simpl app. rewrite rstrip_rev_step. by rewrite E1, E2, E3.
Qed.

Lemma lstrip_ascii_head c l :
  is_ascii c -> is_py_space c = false -> lstrip_bytes (c :: l) = c :: l.
Proof.
  intros Ha Hs. simpl. rewrite Hs. destruct l as [|b [|d l]]; [done| |].
  - by rewrite is_py_space2_ascii.
  - rewrite is_py_space2_ascii, is_py_space3_ascii_l by done. done.
Qed.

Lemma py_strip_list s :
  String.list_ascii_of_string (py_strip s) =
  rev (rstrip_rev (rev (lstrip_bytes (String.list_ascii_of_string s)))).
Proof.
  unfold py_strip, reverse. rewrite <- !rev_alt.
  by rewrite String.list_ascii_of_string_of_list_ascii.
Qed.

(** The stripped text is a piece of the text. *)
Lemma py_strip_infix s :
  exists pre suf, String.list_ascii_of_string s =
    pre ++ String.list_ascii_of_string (py_strip s) ++ suf.
Proof.
  rewrite py_strip_list.
  destruct (lstrip_suffix (String.list_ascii_of_string s)) as [pre Hpre].
  set (m := lstrip_bytes (String.list_ascii_of_string s)) in *.
  destruct (rstrip_suffix (rev m)) as [suf Hsuf].
  exists pre, (rev suf). rewrite Hpre at 1. f_equal.
  transitivity (rev (rev m)); [by rewrite rev_involutive|].
  rewrite Hsuf at 1. by rewrite rev_app_distr.
Qed.

Lemma py_strip_Forall (P : ascii -> Prop) s :
  Forall P (String.list_ascii_of_string s) -> Forall P (String.list_ascii_of_string (py_strip s)).
Proof.
  intros H. destruct (py_strip_infix s) as (pre & suf & Hs). rewrite Hs in H.
  apply Forall_app in H as [_ H]. by apply Forall_app in H as [H _].
Qed.

(** A text starting with a non-space ASCII character and ending with a
    stripped non-empty text is stripped. *)
Lemma py_strip_ascii_prefix p s :
  Forall is_ascii (String.list_ascii_of_string p) ->
  ascii_nonspace_head (String.list_ascii_of_string p) ->
  py_strip s <> "" ->
  py_strip (p +:+ py_strip s) = p +:+ py_strip s.
Proof.
  intros Hasc Hhd Hne. apply list_ascii_inj.
  rewrite py_strip_list, list_ascii_app.
  assert (Hm : rstrip_rev (rev (String.list_ascii_of_string (py_strip s))) =
               rev (String.list_ascii_of_string (py_strip s))).
  { rewrite py_strip_list, rev_involutive. apply rstrip_rev_idem. }
  assert (Hmne : rev (String.list_ascii_of_string (py_strip s)) <> []).
  { intros H. apply Hne. apply list_ascii_inj.
    rewrite <- (rev_involutive (String.list_ascii_of_string (py_strip s))), H. done. }
  set (m := String.list_ascii_of_string (py_strip s)) in *.
  destruct (String.list_ascii_of_string p) as [|c p'] eqn:Hp; [contradiction|].
  inversion Hasc as [|? ? Hc _]; subst.
  rewrite <- app_comm_cons, lstrip_ascii_head by done.
  rewrite app_comm_cons, rev_app_distr, rstrip_rev_app_ascii by (done || by apply Forall_rev).
  by rewrite rev_app_distr, !rev_involutive.
Qed.

Lemma py_strip_empty : py_strip "" = "".
Proof. reflexivity. Qed.

(** [str.strip] on non-ASCII white space: the no-break space U+00A0 goes
    as Python removes it, in the reply of the model, the defendant's name
    and the legal articles. *)
Example py_strip_nbsp : py_strip (nbsp +:+ "Шаги" +:+ nbsp +:+ nl) = "Шаги".
Proof. vm_compute. reflexivity. Qed.

Example compare_nbsp_deep_payload :
  compare_testimonies (stub_backend (Some (nbsp +:+ deep_payload))) deep_loads "a" "b" =
  ([StError ("Ошибка при сравнении показаний: " +:+ exc_msg deep_recursion_error)], None).
Proof. vm_compute. reflexivity. Qed.

Example defendant_nbsp : defendant_of ("ФИО:" +:+ nbsp +:+ "Иванов") = Ok "Иванов".
Proof. vm_compute. reflexivity. Qed.

Example legal_articles_nbsp :
  legal_articles (Some ("Статьи: ст. 105" +:+ nbsp +:+ ", ст. 106")) = ["ст. 105"; "ст. 106"].
Proof. vm_compute. reflexivity. Qed.

(** Decimal numbers are written with ASCII digits. *)
Lemma pretty_N_char_digit d : ascii_digit (pretty_N_char d).
Proof. unfold ascii_digit, is_ascii, pretty_N_char. repeat case_match; vm_compute; split; auto; lia. Qed.

Lemma pretty_N_go_digits x s :
  Forall ascii_digit (String.list_ascii_of_string s) ->
  Forall ascii_digit (String.list_ascii_of_string (pretty_N_go x s)).
Proof.
  revert s. induction (N.lt_wf_0 x) as [x _ IH]; intros s Hs.
  destruct (decide (x = 0%N)) as [->|Hx]; [by rewrite pretty_N_go_0|].
  rewrite pretty_N_go_step by lia. apply IH.
  - apply N.div_lt; lia.
  - simpl. constructor; [apply pretty_N_char_digit|exact Hs].
Qed.

Lemma pretty_nat_digits (n : nat) :
  Forall ascii_digit (String.list_ascii_of_string (pretty n)).
Proof.
  unfold pretty, pretty_nat, pretty, pretty_N.
  case_decide; [repeat constructor; vm_compute; lia|]. by apply pretty_N_go_digits.
Qed.

Lemma pretty_nat_nonspace (n : nat) :
  Forall (fun c => is_py_space c = false) (String.list_ascii_of_string (pretty n)).
Proof. eapply Forall_impl; [apply pretty_nat_digits|]. by intros c [_ H]. Qed.

Lemma nonspace_not_nl c : is_py_space c = false -> c <> Ascii.ascii_of_nat 10.
Proof. intros H ->. discriminate H. Qed.

(** The text [format_questions] builds splits back into its items. *)
Lemma number_lines_split i lines :
  Forall (fun l => Forall (fun x => x <> Ascii.ascii_of_nat 10) (String.list_ascii_of_string l)) lines ->
  split_go nl 0 (String.list_ascii_of_string (number_lines i lines)) [] =
  numbered_items i lines ++ [EmptyString].
Proof.
  intros H. revert i. induction H as [|l ls Hl _ IH]; intros i; [done|].
  cbn [number_lines numbered_items]. destruct (String.eqb (py_strip l) "") eqn:E.
  - rewrite string_app_nil. apply IH.
  - replace (pretty i +:+ ". " +:+ py_strip l +:+ nl)
      with ((pretty i +:+ ". " +:+ py_strip l) +:+ nl) by (by rewrite !string_app_assoc).
    assert (Hitem : Forall (fun x => x <> Ascii.ascii_of_nat 10)
              (String.list_ascii_of_string (pretty i +:+ ". " +:+ py_strip l))).
    { rewrite !list_ascii_app. apply Forall_app; split.
      { eapply Forall_impl; [apply pretty_nat_nonspace|]. apply nonspace_not_nl. }
      apply Forall_app; split; [repeat constructor; discriminate|].
      by apply py_strip_Forall. }
    set (item := pretty i +:+ ". " +:+ py_strip l) in *.
    rewrite (list_ascii_app (item +:+ nl)), (list_ascii_app item nl), <- app_assoc.
    unfold nl. simpl (String.list_ascii_of_string (String _ _)). simpl app at 2.
    rewrite split1_at by exact Hitem.
    simpl. rewrite String.string_of_list_ascii_of_string. f_equal. apply IH.
Qed.

Lemma number_lines_nil i lines : numbered_items i lines = [] -> number_lines i lines = "".
Proof.
  revert i. induction lines as [|l ls IH]; intros i H; [done|].
  cbn [number_lines numbered_items] in *. destruct (String.eqb (py_strip l) ""); [|done].
  rewrite string_app_nil. by apply IH.
Qed.

Lemma numbered_items_stripped i lines :
  Forall (fun x => py_strip x = x /\ x <> "") (numbered_items i lines).
Proof.
  revert i. induction lines as [|l ls IH]; intros i; [constructor|].
  cbn [numbered_items]. destruct (String.eqb (py_strip l) "") eqn:E; [apply IH|].
  constructor; [|apply IH]. apply String.eqb_neq in E.
  pose proof (pretty_nat_digits i) as Hd.
  split.
  - rewrite string_app_assoc. apply py_strip_ascii_prefix; [| |done].
    + rewrite list_ascii_app. apply Forall_app; split.
      * eapply Forall_impl; [exact Hd|]. by intros c [H _].
      * repeat constructor; unfold is_ascii; vm_compute; lia.
    + rewrite list_ascii_app.
      destruct (String.list_ascii_of_string (pretty i)) as [|c l'].
      * reflexivity.
      * inversion Hd as [|? ? [_ Hc] _]. exact Hc.
  - intros H. apply (f_equal String.list_ascii_of_string) in H. rewrite !list_ascii_app in H.
    destruct (String.list_ascii_of_string (pretty i)); discriminate.
Qed.

Lemma nonblank_items (items : list string) :
  Forall (fun x => py_strip x = x /\ x <> "") items ->
  map py_strip (List.filter (fun l => negb (String.eqb (py_strip l) "")) (items ++ [EmptyString])) = items.
Proof.
  induction 1 as [|x xs [Hx Hne] _ IH]; [done|]. simpl. rewrite Hx.
  apply String.eqb_neq in Hne. rewrite Hne. simpl. rewrite Hx. f_equal. exact IH.
Qed.


(** Extra property: when the model's reply starts with neither [1.] nor
    [-], the suggested questions the transcription page stores are the
    non-blank reply lines, stripped and numbered by their position among
    all lines (blank lines leave gaps in the numbering); a reply without a
    non-blank line gives no question and an error message. *)
Theorem generate_questions_numbering chat_create contradictions resp result :
  chat_create (questions_request contradictions) = Ok resp ->
  raw_response_of resp = Ok result ->
  starts_with "1." result = false -> starts_with "-" result = false ->
  suggested_questions (generate_questions chat_create contradictions).2 =
  (match numbered_items 1 (py_split result nl) with
   | [] => [StError "Не удалось сгенерировать вопросы."]
   | _ :: _ => []
   end, numbered_items 1 (py_split result nl)).
Proof.
  intros Hc Hr H1 H2. unfold generate_questions. rewrite Hc. simpl. rewrite Hr.
  unfold format_questions. rewrite H1, H2. simpl.
  assert (Hsplit := number_lines_split 1 (py_split result nl)
                      (split1_pieces _ (String.list_ascii_of_string result) [] (List.Forall_nil _))).
  destruct (numbered_items 1 (py_split result nl)) as [|x xs] eqn:Ei.
  - rewrite number_lines_nil by exact Ei. reflexivity.
  - simpl. destruct (String.eqb (number_lines 1 (py_split result nl)) "") eqn:Ee.
    + apply String.eqb_eq in Ee. rewrite Ee in Hsplit. simpl in Hsplit.
      injection Hsplit as _ Hx. destruct xs; discriminate Hx.
    + unfold nonblank_lines.
      change (py_split (number_lines 1 (py_split result nl)) nl) with
        (split_go nl 0 (String.list_ascii_of_string (number_lines 1 (py_split result nl))) []).
      rewrite Hsplit, <- Ei.
      f_equal. apply nonblank_items, numbered_items_stripped.
Qed.


Lemma mapM_contradiction_line_raise py_str_container pre x post :
  Forall (fun c => exists kvs, c = JObj kvs) pre -> (forall kvs, x <> JObj kvs) ->
  mapM (contradiction_line py_str_container) (pre ++ x :: post) =
  Raise (PyExc "AttributeError" ("'" +:+ type_name x +:+ "' object has no attribute 'get'")).
Proof.
  intros Hpre Hx. induction Hpre as [|c pre [kvs ->] _ IH].
  - simpl. destruct x; try reflexivity. by destruct (Hx kvs).
  - simpl. rewrite IH. reflexivity.
Qed.

(** Extra property: a contradiction list in which some entry is not a JSON
    object, which [compare_testimonies] returns as it is, makes the
    question step of the transcription page raise [AttributeError] when it
    builds its [- description] lines. *)
Theorem compare_then_contradictions_text chat_create json_loads py_str_container
    text1 text2 resp raw pre x post :
  chat_create (compare_request text1 text2) = Ok resp ->
  raw_response_of resp = Ok raw ->
  json_loads raw = LoadsOk (JList (pre ++ x :: post)) ->
  Forall (fun c => exists kvs, c = JObj kvs) pre -> (forall kvs, x <> JObj kvs) ->
  (compare_testimonies chat_create json_loads text1 text2).2 = Some (pre ++ x :: post) /\
  contradictions_text py_str_container (pre ++ x :: post) =
    Raise (PyExc "AttributeError" ("'" +:+ type_name x +:+ "' object has no attribute 'get'")).
Proof.
  intros Hc Hr Hl Hpre Hx. split.
  - by rewrite (compare_testimonies_list _ _ _ _ _ _ _ Hc Hr Hl).
  - unfold contradictions_text. by rewrite mapM_contradiction_line_raise.
Qed.

Lemma evidence_step_blank n c :
  exists m, evidence_step (replicate (S n) blank_evidence) c = replicate (S m) blank_evidence.
Proof.
  destruct c.
  - exists (S n). unfold evidence_step. by rewrite <- replicate_S_end.
  - destruct n as [|n]; [by exists 0|]. exists n.
    unfold evidence_step. rewrite length_replicate.
    change (1 <? S (S n))%nat with true. cbv iota.
    by rewrite (replicate_S_end (S n)), removelast_last.
Qed.

Lemma evidence_fold clicks n :
  exists m, fold_left evidence_step clicks (replicate (S n) blank_evidence) =
            replicate (S m) blank_evidence.
Proof.
  revert n. induction clicks as [|c clicks IH]; intros n; [by exists n|].
  cbn [fold_left]. destruct (evidence_step_blank n c) as [m ->]. apply IH.
Qed.

(** Extra property: whatever the sequence of add and remove clicks, the
    indictment form's [st.session_state.evidence_list] holds at least one
    entry and only blank ones ([type] and [description] empty): what the
    user types is never written back to it. *)
Theorem evidence_session_blank clicks :
  exists n, evidence_session clicks = replicate (S n) blank_evidence.
Proof. apply (evidence_fold clicks 0). Qed.


(** Extra property: the planning page stores no legal article exactly when
    the classification is missing ([None]) or does not contain [Статьи:];
    otherwise at least one article, possibly an empty one, and no article
    contains a comma. *)
Theorem legal_articles_shape classification :
  (legal_articles classification = [] <->
   match classification with
   | None => True
   | Some c => py_contains "Статьи:" c = false
   end) /\
  Forall (fun a => Forall (fun x => x <> ","%char) (String.list_ascii_of_string a))
    (legal_articles classification).
Proof.
  destruct classification as [c|]; [|split; [tauto|constructor]].
  unfold legal_articles. destruct (py_contains "Статьи:" c) eqn:Hc; [|split; [tauto|constructor]].
  unfold py_contains in Hc. destruct (String.index 0 "Статьи:" c) as [n|] eqn:Hi; [|discriminate].
  rewrite <- (String.string_of_list_ascii_of_string c) in Hi.
  destruct (split_go_index "Статьи:" (String.list_ascii_of_string c) [] n ltac:(discriminate) Hi)
    as (p & q & r & Hs).
  change (py_split c "Статьи:") with (split_go "Статьи:" 0 (String.list_ascii_of_string c) []).
  rewrite Hs. split.
  - split; [|discriminate]. intros H. apply map_eq_nil in H.
    by apply split_go_nonempty in H.
  - apply List.Forall_forall. intros a Ha. apply in_map_iff in Ha as (b & <- & Hb).
    apply py_strip_Forall.
    pose proof (split1_pieces ","%char (String.list_ascii_of_string (py_strip q)) []
                  (List.Forall_nil _)) as Hp.
    rewrite List.Forall_forall in Hp. exact (Hp b Hb).
Qed.

Lemma split1_first c s cur :
  exists u rest, Forall (fun x => x <> c) u /\
    split_go (String c EmptyString) 0 s cur = String.string_of_list_ascii (rev cur ++ u) :: rest.
Proof.
  revert cur. induction s as [|x s IH]; intros cur.
  - exists [], []. split; [constructor|]. simpl. by rewrite app_nil_r.
  - rewrite split1_cons. destruct (Ascii.ascii_dec c x) as [->|Hx].
    + exists [], (split_go (String x EmptyString) 0 s []). split; [constructor|].
      by rewrite app_nil_r.
    + destruct (IH (x :: cur)) as (u & rest & Hu & ->). exists (x :: u), rest.
      split; [constructor; auto|]. simpl. by rewrite <- app_assoc.
Qed.

Lemma index1_app c xs rest :
  exists n, String.index 0 (String c EmptyString) (String.string_of_list_ascii (xs ++ c :: rest)) = Some n.
Proof.
  induction xs as [|x xs [n IH]].
  - simpl. destruct (Ascii.ascii_dec c c); [|done].
    destruct (String.string_of_list_ascii rest); eauto.
  - simpl. rewrite IH. repeat case_match; eauto.
Qed.

(** Extra property: when the first line of [suspect_info] contains a
    colon, the defendant named in the indictment is the text between the
    first and the second colon of that line, stripped: whatever follows a
    second colon on the line is dropped. *)
Theorem defendant_between_colons a b tail :
  Forall (fun x => x <> ":"%char /\ x <> Ascii.ascii_of_nat 10) (String.list_ascii_of_string a) ->
  Forall (fun x => x <> ":"%char /\ x <> Ascii.ascii_of_nat 10) (String.list_ascii_of_string b) ->
  tail = EmptyString \/ (exists t, tail = ":" +:+ t) \/ (exists t, tail = nl +:+ t) ->
  defendant_of (a +:+ ":" +:+ b +:+ tail) = Ok (py_strip b).
Proof.
  intros Ha Hb Htail.
  set (xs := String.list_ascii_of_string a ++ ":"%char :: String.list_ascii_of_string b).
  assert (Hl : String.list_ascii_of_string (a +:+ ":" +:+ b +:+ tail) =
               xs ++ String.list_ascii_of_string tail).
  { unfold xs. rewrite !list_ascii_app. simpl. by rewrite <- app_assoc. }
  assert (Hxs : Forall (fun x => x <> Ascii.ascii_of_nat 10) xs).
  { unfold xs. apply Forall_app; split; [|constructor; [discriminate|]];
      eapply Forall_impl; eauto; intros ? []; done. }
  assert (Hfirst : exists u rest,
            (u = [] \/ exists u', u = ":"%char :: u') /\
            py_split (a +:+ ":" +:+ b +:+ tail) nl = String.string_of_list_ascii (xs ++ u) :: rest).
  { unfold py_split. rewrite Hl. unfold nl. rewrite split1_free by exact Hxs.
    rewrite app_nil_r. destruct Htail as [->|[[t ->]|[t ->]]].
    - exists [], []. split; [by left|]. simpl. by rewrite rev_involutive, app_nil_r.
    - rewrite list_ascii_app. simpl (String.list_ascii_of_string ":"). simpl app.
      rewrite split1_cons. destruct (Ascii.ascii_dec _ _) as [He|_]; [discriminate He|].
      destruct (split1_first (Ascii.ascii_of_nat 10) (String.list_ascii_of_string t) (":"%char :: rev xs))
        as (u & rest & _ & ->).
      exists (":"%char :: u), rest. split; [right; eauto|]. simpl.
      rewrite rev_involutive, <- app_assoc. done.
    - rewrite list_ascii_app. simpl (String.list_ascii_of_string (String _ _)). simpl app.
      rewrite split1_cons. destruct (Ascii.ascii_dec _ _) as [_|He]; [|done].
      eexists [], _. split; [by left|]. by rewrite rev_involutive, app_nil_r. }
  destruct Hfirst as (u & rest & Hu & Hsplit).
  unfold defendant_of. rewrite Hsplit.
  assert (Hxu : xs ++ u = String.list_ascii_of_string a ++ ":"%char :: (String.list_ascii_of_string b ++ u)).
  { unfold xs. by rewrite <- app_assoc. }
  rewrite Hxu. unfold py_contains.
  destruct (index1_app ":"%char (String.list_ascii_of_string a) (String.list_ascii_of_string b ++ u))
    as [n ->].
  unfold py_split. rewrite String.list_ascii_of_string_of_list_ascii.
  rewrite split1_at by (eapply Forall_impl; [exact Ha|]; intros ? []; done).
  destruct Hu as [->|[u' ->]].
  - rewrite app_nil_r, split1_end by (eapply Forall_impl; [exact Hb|]; intros ? []; done).
    simpl. by rewrite String.string_of_list_ascii_of_string.
  - rewrite split1_at by (eapply Forall_impl; [exact Hb|]; intros ? []; done).
    simpl. by rewrite String.string_of_list_ascii_of_string.
Qed.


(** *** Case numbers *)

Lemma string_length_app (a b : string) : String.length (a +:+ b) = String.length a + String.length b.
Proof. induction a as [|c a IH]; [done|]. rewrite string_app_cons. simpl. by rewrite IH. Qed.

Lemma length_digits w n : String.length (digits w n) = w.
Proof.
  revert n. induction w as [|w IH]; intros n; [done|]. simpl.
  rewrite string_length_app, IH. simpl. lia.
Qed.

Lemma compare_app_eqlen (a b c d : string) :
  String.length a = String.length c ->
  String.compare (a +:+ b) (c +:+ d) =
  match String.compare a c with Eq => String.compare b d | r => r end.
Proof.
  revert c. induction a as [|x a IH]; intros [|y c] Hl; try done.
  rewrite !string_app_cons. simpl. simpl in Hl.
  destruct (Ascii.compare x y); [apply IH; lia|done|done].
Qed.

Lemma string_compare_refl (a : string) : String.compare a a = Eq.
Proof.
  induction a as [|x a IH]; [done|]. simpl. unfold Ascii.compare.
  by rewrite N.compare_refl.
Qed.

Lemma compare_app_same (a b d : string) :
  String.compare (a +:+ b) (a +:+ d) = String.compare b d.
Proof.
  rewrite compare_app_eqlen by done.
  by rewrite string_compare_refl.
Qed.

Lemma ascii_compare_digit a b :
  (a < 10)%N -> (b < 10)%N ->
  Ascii.compare (Ascii.ascii_of_N (48 + a)) (Ascii.ascii_of_N (48 + b)) = N.compare a b.
Proof.
  intros Ha Hb. unfold Ascii.compare.
  rewrite !Ascii.N_ascii_embedding by lia.
  destruct (N.compare_spec a b); [subst; apply N.compare_refl|..].
  - apply N.compare_lt_iff. lia.
  - apply N.compare_gt_iff. lia.
Qed.

Lemma compare_div_mod n m :
  match N.compare (n / 10) (m / 10) with
  | Eq => N.compare (n mod 10) (m mod 10)
  | r => r
  end = N.compare n m.
Proof.
  pose proof (N.div_mod n 10 ltac:(lia)). pose proof (N.mod_lt n 10 ltac:(lia)).
  pose proof (N.div_mod m 10 ltac:(lia)). pose proof (N.mod_lt m 10 ltac:(lia)).
  set (q1 := (n / 10)%N) in *. set (r1 := (n mod 10)%N) in *.
  set (q2 := (m / 10)%N) in *. set (r2 := (m mod 10)%N) in *.
  clearbody q1 r1 q2 r2.
  destruct (N.compare_spec q1 q2).
  - destruct (N.compare_spec r1 r2); symmetry;
      [apply N.compare_eq_iff|apply N.compare_lt_iff|apply N.compare_gt_iff]; lia.
  - symmetry. apply N.compare_lt_iff. lia.
  - symmetry. apply N.compare_gt_iff. lia.
Qed.

Lemma compare_digits w n m :
  (n < 10 ^ N.of_nat w)%N -> (m < 10 ^ N.of_nat w)%N ->
  String.compare (digits w n) (digits w m) = N.compare n m.
Proof.
  revert n m. induction w as [|w IH]; intros n m Hn Hm.
  - simpl in *. assert (n = 0%N) as -> by lia. assert (m = 0%N) as -> by lia. done.
  - simpl. rewrite compare_app_eqlen by (by rewrite !length_digits).
    rewrite Nat2N.inj_succ, N.pow_succ_r' in Hn, Hm.
    rewrite IH by (apply N.Div0.div_lt_upper_bound; lia).
    rewrite <- (compare_div_mod n m). destruct (N.compare (n / 10) (m / 10)); try done.
    simpl. rewrite ascii_compare_digit by (apply N.mod_lt; lia).
    by destruct (N.compare (n mod 10) (m mod 10)).
Qed.

Lemma pretty_year_check :
  forallb (fun k => String.eqb (pretty (N.of_nat k + 1000)%N) (digits 4 (N.of_nat k + 1000)))
          (seq 0 9000) = true.
Proof. vm_compute. reflexivity. Qed.

Lemma pretty_year y : (1000 <= y <= 9999)%N -> pretty y = digits 4 y.
Proof.
  intros Hy. pose proof pretty_year_check as H.
  rewrite forallb_forall in H. specialize (H (N.to_nat (y - 1000))).
  rewrite in_seq in H. rewrite N2Nat.id in H.
  replace (y - 1000 + 1000)%N with y in H by lia.
  apply String.eqb_eq, H. split; [lia|].
  change (0 + 9000)%nat with (N.to_nat 9000). lia.
Qed.

Lemma pad2_check :
  forallb (fun k => String.eqb (pad2 (N.of_nat k)) (digits 2 (N.of_nat k))) (seq 0 100) = true.
Proof. vm_compute. reflexivity. Qed.

Lemma pad2_digits n : (n < 100)%N -> pad2 n = digits 2 n.
Proof.
  intros Hn. pose proof pad2_check as H.
  rewrite forallb_forall in H. specialize (H (N.to_nat n)).
  rewrite in_seq, N2Nat.id in H. apply String.eqb_eq, H. lia.
Qed.

Lemma lex_step (x1 x2 y1 y2 K : N) :
  (y1 < K)%N -> (y2 < K)%N ->
  match N.compare x1 x2 with Eq => N.compare y1 y2 | r => r end =
  N.compare (x1 * K + y1) (x2 * K + y2).
Proof.
  intros H1 H2. destruct (N.compare_spec x1 x2).
  - subst. destruct (N.compare_spec y1 y2); symmetry;
      [apply N.compare_eq_iff|apply N.compare_lt_iff|apply N.compare_gt_iff]; lia.
  - symmetry. apply N.compare_lt_iff. nia.
  - symmetry. apply N.compare_gt_iff. nia.
Qed.

Lemma case_stamp_digits t :
  datetime_ok t ->
  case_stamp t = digits 4 (year t) +:+ digits 2 (month t) +:+ digits 2 (day t) +:+ "-" +:+
                 digits 2 (hour t) +:+ digits 2 (minute t) +:+ digits 2 (second t).
Proof.
  intros (Hy & Hm & Hd & Hh & Hmi & Hs). unfold case_stamp.
  rewrite pretty_year by lia. rewrite !pad2_digits by lia. reflexivity.
Qed.

(** Extra property: case numbers with the same prefix compare, as strings,
    like the moments they were generated at (for four-digit years):
    sorting them sorts the cases chronologically. *)
Theorem case_number_order prefix t1 t2 :
  datetime_ok t1 -> datetime_ok t2 ->
  String.compare (generate_case_number prefix t1) (generate_case_number prefix t2) =
  N.compare (chrono t1) (chrono t2).
Proof.
  intros H1 H2. unfold generate_case_number.
  rewrite (case_stamp_digits t1 H1), (case_stamp_digits t2 H2).
  destruct H1 as (Hy1 & Hm1 & Hd1 & Hh1 & Hmi1 & Hs1).
  destruct H2 as (Hy2 & Hm2 & Hd2 & Hh2 & Hmi2 & Hs2).
  rewrite !compare_app_same.
  rewrite !compare_app_eqlen by (by rewrite !length_digits).
  rewrite !compare_app_same.
  rewrite !compare_app_eqlen by (by rewrite !length_digits).
  rewrite !compare_digits by (simpl; lia).
  rewrite (lex_step (minute t1) (minute t2) _ _ 100) by lia.
  rewrite (lex_step (hour t1) (hour t2) _ _ 10000) by lia.
  rewrite (lex_step (day t1) (day t2) _ _ 1000000) by lia.
  rewrite (lex_step (month t1) (month t2) _ _ 100000000) by lia.
  rewrite (lex_step (year t1) (year t2) _ _ 10000000000) by lia.
  unfold chrono. f_equal; lia.
Qed.

(** Extra property: for valid moments (four-digit years), two case numbers
    with the same prefix coincide exactly when they were generated at the
    same second. *)
Theorem case_number_injective prefix t1 t2 :
  datetime_ok t1 -> datetime_ok t2 ->
  generate_case_number prefix t1 = generate_case_number prefix t2 <-> t1 = t2.
Proof.
  intros H1 H2. split; [|by intros ->].
  intros Heq.
  assert (Hc : N.compare (chrono t1) (chrono t2) = Eq).
  { rewrite <- (case_number_order prefix t1 t2 H1 H2), Heq. apply string_compare_refl. }
  apply N.compare_eq_iff in Hc. unfold chrono in Hc.
  destruct H1 as (Hy1 & Hm1 & Hd1 & Hh1 & Hmi1 & Hs1).
  destruct H2 as (Hy2 & Hm2 & Hd2 & Hh2 & Hmi2 & Hs2).
  destruct t1 as [y1 mo1 d1 h1 mi1 s1], t2 as [y2 mo2 d2 h2 mi2 s2]; simpl in *.
  f_equal; lia.
Qed.


(** *** [create_directories] *)

Lemma mkdir_storage_files d sub d' :
  mkdir_storage d sub = Ok d' ->
  disk_files d' = disk_files d /\ disk_dirs d ⊆ disk_dirs d' /\
  "storage" ∈ disk_dirs d' /\ ("storage/" +:+ sub) ∈ disk_dirs d'.
Proof.
  unfold mkdir_storage. case_bool_decide; [done|]. case_bool_decide; [done|].
  intros [= <-]. simpl. set_solver.
Qed.

Lemma mkdirs_mono d subs :
  disk_files (mkdirs d subs).1 = disk_files d /\ disk_dirs d ⊆ disk_dirs (mkdirs d subs).1.
Proof.
  revert d. induction subs as [|sub subs IH]; intros d; simpl; [done|].
  destruct (mkdir_storage d sub) as [d1|e] eqn:Hm; [|done].
  apply mkdir_storage_files in Hm as (Hf & Hd & _).
  destruct (IH d1) as [Hf' Hd']. split; [congruence|set_solver].
Qed.

Lemma mkdir_storage_again d sub d1 d2 :
  mkdir_storage d sub = Ok d1 ->
  disk_files d2 = disk_files d -> disk_dirs d1 ⊆ disk_dirs d2 ->
  mkdir_storage d2 sub = Ok d2.
Proof.
  intros Hm Hf Hsub. pose proof (mkdir_storage_files _ _ _ Hm) as (_ & _ & Hs & Hp).
  revert Hm. unfold mkdir_storage. rewrite Hf.
  destruct (bool_decide (is_Some (disk_files d !! "storage"))); [done|].
  destruct (bool_decide (is_Some (disk_files d !! ("storage/" +:+ sub)))); [done|].
  intros _. destruct d2 as [dirs2 files2]; simpl in *. subst files2.
  assert (Hu : {[ "storage/" +:+ sub ]} ∪ ({[ "storage" ]} ∪ dirs2) = dirs2) by (apply leibniz_equiv; set_solver).
  by rewrite Hu.
Qed.

Lemma mkdirs_idempotent d subs : mkdirs (mkdirs d subs).1 subs = mkdirs d subs.
Proof.
  revert d. induction subs as [|sub subs IH]; intros d; cbn [mkdirs]; [done|].
  destruct (mkdir_storage d sub) as [d1|e] eqn:Hm.
  - cbn [mkdirs]. destruct (mkdirs_mono d1 subs) as [Hf Hd].
    pose proof (mkdir_storage_files _ _ _ Hm) as (Hf1 & _).
    rewrite (mkdir_storage_again d sub d1 (mkdirs d1 subs).1 Hm) by (try congruence; done).
    apply IH.
  - cbn [fst mkdirs]. by rewrite Hm.
Qed.

(** Extra property: [create_directories] is idempotent: the call that
    [save_history] makes on every save finds the directories of the
    previous call and reports the same outcome. *)
Theorem create_directories_idempotent d :
  create_directories (create_directories d).1 = create_directories d.
Proof.
  unfold create_directories.
  pose proof (mkdirs_idempotent d storage_subdirs) as H.
  destruct (mkdirs d storage_subdirs) as [d1 [e|]]; simpl in *; by rewrite H.
Qed.

Lemma mkdirs_clear d subs :
  disk_files d !! "storage" = None ->
  Forall (fun sub => disk_files d !! ("storage/" +:+ sub) = None) subs ->
  (mkdirs d subs).2 = None /\
  disk_files (mkdirs d subs).1 = disk_files d /\
  (forall x, x ∈ disk_dirs (mkdirs d subs).1 <->
     x ∈ disk_dirs d \/ (subs <> [] /\ x = "storage") \/ (exists sub, sub ∈ subs /\ x = "storage/" +:+ sub)).
Proof.
  revert d. induction subs as [|sub subs IH]; intros d Hs Hall; cbn [mkdirs].
  { split; [done|split; [done|]]. intros x. split; [tauto|].
    intros [?|[[? _]|[? [?%elem_of_nil _]]]]; done. }
  inversion Hall as [|? ? Hsub Hrest]; subst.
  assert (Hm : mkdir_storage d sub =
    Ok {| disk_dirs := {[ "storage/" +:+ sub ]} ∪ ({[ "storage" ]} ∪ disk_dirs d);
          disk_files := disk_files d |}).
  { unfold mkdir_storage. rewrite Hs, Hsub. reflexivity. }
  rewrite Hm.
  destruct (IH {| disk_dirs := {[ "storage/" +:+ sub ]} ∪ ({[ "storage" ]} ∪ disk_dirs d);
                  disk_files := disk_files d |}) as (H1 & H2 & H3); [done|done|].
  split; [done|split; [done|]]. intros x. rewrite H3. cbn [disk_dirs].
  rewrite !elem_of_union, !elem_of_singleton. setoid_rewrite elem_of_cons.
  naive_solver.
Qed.

Lemma create_directories_clear d :
  storage_clear d ->
  (create_directories d).2 = [] /\
  disk_files (create_directories d).1 = disk_files d /\
  (forall x, x ∈ disk_dirs (create_directories d).1 <->
     x ∈ disk_dirs d \/ x = "storage" \/ (exists sub, sub ∈ storage_subdirs /\ x = "storage/" +:+ sub)).
Proof.
  intros [Hs Hall]. unfold create_directories.
  destruct (mkdirs_clear d storage_subdirs Hs Hall) as (H1 & H2 & H3).
  destruct (mkdirs d storage_subdirs) as [d1 [e|]]; simpl in *; [done|].
  split; [done|split; [done|]]. intros x. rewrite H3. naive_solver.
Qed.


(** *** [save_history] *)

Lemma string_app_nil_r (s : string) : s +:+ EmptyString = s.
Proof. induction s as [|c s IH]; [done|]. by rewrite string_app_cons, IH. Qed.

Lemma no_slash_app x y : no_slash (x +:+ y) <-> no_slash x /\ no_slash y.
Proof. unfold no_slash. by rewrite list_ascii_app, Forall_app. Qed.

Lemma not_no_slash_slash x y : ~ no_slash (x +:+ "/" +:+ y).
Proof.
  rewrite !no_slash_app. intros (_ & Hs & _). unfold no_slash in Hs. simpl in Hs.
  by inversion Hs.
Qed.

Lemma ancestors_go_free acc l :
  Forall (fun c => c <> "/"%char) l -> ancestors_go acc l = [].
Proof.
  revert acc. induction l as [|c l IH]; intros acc Hl; [done|].
  inversion Hl as [|? ? Hc Hl']; subst. simpl.
  destruct (Ascii.ascii_dec c "/"); [done|]. by apply IH.
Qed.

Lemma ancestors_go_slash acc x l :
  no_slash x ->
  ancestors_go acc (String.list_ascii_of_string x ++ "/"%char :: l) =
  (acc +:+ x) :: ancestors_go ((acc +:+ x) +:+ "/") l.
Proof.
  unfold no_slash. revert acc. induction x as [|c x IH]; intros acc Hx; simpl.
  - by rewrite string_app_nil_r.
  - inversion Hx as [|? ? Hc Hx']; subst.
    destruct (Ascii.ascii_dec c "/"); [done|].
    rewrite IH by done. rewrite <- !string_app_assoc. done.
Qed.

Lemma ancestors_go_slash_str acc x y :
  no_slash x ->
  ancestors_go acc (String.list_ascii_of_string (x +:+ "/" +:+ y)) =
  (acc +:+ x) :: ancestors_go ((acc +:+ x) +:+ "/") (String.list_ascii_of_string y).
Proof. intros Hx. rewrite !list_ascii_app. by apply ancestors_go_slash. Qed.

Lemma create_directories_files d :
  disk_files (create_directories d).1 = disk_files d.
Proof.
  unfold create_directories. pose proof (mkdirs_mono d storage_subdirs) as [Hf _].
  destruct (mkdirs d storage_subdirs) as [d1 [e|]]; done.
Qed.

Lemma storage_subdirs_no_slash sub : sub ∈ storage_subdirs -> no_slash sub.
Proof.
  intros Hs. repeat (apply elem_of_cons in Hs as [->|Hs]);
    [..|by apply elem_of_nil in Hs];
    unfold no_slash; simpl; repeat (apply List.Forall_cons; [discriminate|]); apply List.Forall_nil.
Qed.

(** Extra property: a successful [save_history] writes exactly one file,
    [storage/<module>/<module>_<id>.json] holding the dump of the record
    (replacing an earlier save with the same id), and changes no other
    file. *)
Theorem save_history_writes_one_file json_dumps psc d m data now d' evs p :
  save_history json_dumps psc d m data now = (d', evs, Ok p) ->
  (exists kvs, data = JObj kvs /\ p = history_path m (history_id psc kvs now)) /\
  disk_files d' = <[p := json_dumps data]> (disk_files d) /\
  disk_dirs d' = disk_dirs (create_directories d).1 /\ evs = (create_directories d).2.
Proof.
  unfold save_history. pose proof (create_directories_files d) as Hf.
  destruct (create_directories d) as [d1 evs1]. simpl in Hf.
  destruct data as [| | | |xs|kvs]; try (intros [=]; fail).
  destruct (open_write_error d1 _); [intros [=]|]. intros [= <- <- <-].
  split; [eauto|]. simpl. by rewrite Hf.
Qed.


Lemma history_path_ancestors m a b :
  no_slash m -> no_slash a ->
  ancestors (history_path m (a +:+ "/" +:+ b)) =
  "storage" :: ("storage/" +:+ m) :: ("storage/" +:+ m +:+ "/" +:+ m +:+ "_" +:+ a) ::
  ancestors_go ("storage/" +:+ m +:+ "/" +:+ m +:+ "_" +:+ a +:+ "/")
               (String.list_ascii_of_string (b +:+ ".json")).
Proof.
  intros Hm Ha. unfold ancestors, history_path.
  assert (Hma : no_slash (m +:+ "_" +:+ a)).
  { apply no_slash_app; split; [done|]. apply no_slash_app; split; [|done].
    unfold no_slash; simpl. repeat constructor. discriminate. }
  replace ("storage/" +:+ m +:+ "/" +:+ m +:+ "_" +:+ (a +:+ "/" +:+ b) +:+ ".json")
    with ("storage" +:+ "/" +:+ m +:+ "/" +:+ (m +:+ "_" +:+ a) +:+ "/" +:+ (b +:+ ".json"))
    by (rewrite !string_app_assoc; reflexivity).
  rewrite (ancestors_go_slash_str _ "storage") by
    (unfold no_slash; simpl; repeat (apply List.Forall_cons; [discriminate|]); apply List.Forall_nil).
  rewrite ancestors_go_slash_str by done. rewrite ancestors_go_slash_str by done.
  rewrite !string_app_assoc. reflexivity.
Qed.

(** Extra property: a record id containing [/] (the planning and indictment
    pages store the case number the user types, e.g. [12/2024]) makes
    [save_history] raise [FileNotFoundError], on a disk where the storage
    directories can be made and no directory of that name exists: the
    record is not saved. *)
Theorem save_history_slash_in_id json_dumps psc d m kvs now a b :
  storage_clear d -> m ∈ storage_subdirs -> no_slash a ->
  history_id psc kvs now = a +:+ "/" +:+ b ->
  disk_files d !! ("storage/" +:+ m +:+ "/" +:+ m +:+ "_" +:+ a) = None ->
  ("storage/" +:+ m +:+ "/" +:+ m +:+ "_" +:+ a) ∉ disk_dirs d ->
  exists d', save_history json_dumps psc d m (JObj kvs) now =
    (d', [], Raise (errno_exc "FileNotFoundError" "2" "No such file or directory"
                     (history_path m (a +:+ "/" +:+ b))))
    /\ disk_files d' = disk_files d.
Proof.
  intros Hclear Hm Ha Hid Hqf Hqd.
  pose proof (storage_subdirs_no_slash m Hm) as Hms.
  pose proof (create_directories_clear d Hclear) as (Hev & Hf & Hdirs).
  destruct Hclear as [Hs Hall].
  unfold save_history. destruct (create_directories d) as [d1 evs1]. simpl in *. subst evs1.
  exists d1. split; [|done].
  rewrite Hid. unfold open_write_error. rewrite history_path_ancestors by done.
  set (q := "storage/" +:+ m +:+ "/" +:+ m +:+ "_" +:+ a) in *.
  assert (Hsm : disk_files d !! ("storage/" +:+ m) = None).
  { rewrite Forall_forall in Hall. by apply Hall. }
  assert (Hq1 : q <> "storage").
  { intros Hq. apply (not_no_slash_slash "storage" (m +:+ "/" +:+ m +:+ "_" +:+ a)).
    change (no_slash q). rewrite Hq. unfold no_slash; simpl.
    repeat (apply List.Forall_cons; [discriminate|]); apply List.Forall_nil. }
  assert (Hq2 : forall sub, sub ∈ storage_subdirs -> q <> "storage/" +:+ sub).
  { intros sub Hsub Hq. apply (not_no_slash_slash m (m +:+ "_" +:+ a)).
    apply (inj (String.append "storage/")) in Hq. rewrite Hq.
    by apply storage_subdirs_no_slash. }
  cbn [resolve_dirs].
  rewrite (proj2 (String.eqb_neq "storage" "")) by done.
  rewrite Hf, Hs, bool_decide_false by (intros [? ?]; done).
  rewrite bool_decide_true by (apply Hdirs; tauto).
  rewrite (proj2 (String.eqb_neq ("storage/" +:+ m) "")) by done.
  rewrite Hsm, bool_decide_false by (intros [? ?]; done).
  rewrite bool_decide_true by (apply Hdirs; eauto).
  rewrite (proj2 (String.eqb_neq q "")) by (unfold q; done).
  rewrite Hqf, bool_decide_false by (intros [? ?]; done).
  rewrite bool_decide_false.
  - reflexivity.
  - rewrite Hdirs. intros [?|[?|[sub [Hsub ?]]]]; [done|done|]. by apply (Hq2 sub).
Qed.


(** *** Saving then loading *)

Lemma mapM_py_length {A B} (f : A -> py_result B) xs ys :
  mapM f xs = Ok ys -> length ys = length xs.
Proof.
  revert ys. induction xs as [|x xs IH]; intros ys;
    cbn [mapM mbind py_result_bind mret py_result_ret].
  - intros [= <-]. done.
  - destruct (f x); [|done].
    destruct (mapM f xs) eqn:E; [|done]. intros [= <-]. simpl. f_equal. by apply IH.
Qed.

Lemma insert_by_key_perm kx ys ys' : insert_by_key kx ys = Ok ys' -> ys' ≡ₚ kx :: ys.
Proof.
  revert ys'. induction ys as [|ky ys IH]; intros ys'; simpl.
  - intros [= <-]. done.
  - destruct (py_lt kx.1 ky.1) as [[]|e]; [intros [= <-]; done| |done].
    destruct (insert_by_key kx ys) eqn:E; [|done]. intros [= <-].
    rewrite (IH _ eq_refl). constructor.
Qed.

Lemma insertion_sort_perm acc xs s : insertion_sort acc xs = Ok s -> s ≡ₚ acc ++ xs.
Proof.
  revert acc. induction xs as [|x xs IH]; intros acc; simpl.
  - intros [= <-]. by rewrite app_nil_r.
  - destruct (insert_by_key x acc) as [acc'|e] eqn:E; [|done]. intros Hs.
    rewrite (IH _ Hs), (insert_by_key_perm _ _ _ E). simpl.
    by rewrite Permutation_middle.
Qed.

Lemma map_snd_zip {A B} (ks : list A) (xs : list B) :
  length ks = length xs -> map snd (zip ks xs) = xs.
Proof.
  revert xs. induction ks as [|k ks IH]; intros [|x xs] Hl; simpl in *; try done.
  f_equal. apply IH. lia.
Qed.

(** [sorted] returns a permutation of its input whenever it returns. *)
Lemma sorted_reverse_perm key xs hs : sorted_reverse key xs = Ok hs -> hs ≡ₚ xs.
Proof.
  unfold sorted_reverse, mbind, py_result_bind.
  destruct (mapM key xs) as [keys|e] eqn:Ek; [|intros [=]].
  destruct (insertion_sort [] (reverse (zip keys xs))) as [s|e] eqn:Es; [|intros [=]].
  intros [= <-]. rewrite reverse_Permutation.
  rewrite (Permutation_map snd (insertion_sort_perm _ _ _ Es)). simpl.
  rewrite map_reverse, map_snd_zip by (by apply mapM_py_length in Ek).
  apply reverse_Permutation.
Qed.

Lemma substring_whole (s : string) : String.substring 0 (String.length s) s = s.
Proof. induction s as [|c s IH]; [done|]. simpl. by rewrite IH. Qed.

Lemma substring_app (x s : string) :
  String.substring (String.length x) (String.length s) (x +:+ s) = s.
Proof. induction x as [|c x IH]; [apply substring_whole|]. rewrite string_app_cons. apply IH. Qed.

Lemma ends_with_app (suffix x : string) : ends_with suffix (x +:+ suffix) = true.
Proof.
  unfold ends_with. rewrite string_length_app.
  replace (String.length x + String.length suffix - String.length suffix)%nat
    with (String.length x) by lia.
  rewrite substring_app, String.eqb_refl. apply andb_true_intro; split; [|done].
  apply Nat.leb_le. lia.
Qed.

Lemma save_history_ok_file json_dumps psc d m data now d' evs p :
  save_history json_dumps psc d m data now = (d', evs, Ok p) ->
  exists kvs, data = JObj kvs /\ p = history_path m (history_id psc kvs now) /\
    disk_files d' !! p = Some (json_dumps data).
Proof.
  unfold save_history. destruct (create_directories d) as [d1 evs1].
  destruct data as [| | | |xs|kvs]; try (intros [=]; fail).
  destruct (open_write_error d1 _); [intros [=]|]. intros [= <- <- <-].
  exists kvs. split; [done|split; [done|]]. simpl. by rewrite lookup_insert_eq.
Qed.

(** Extra property: a record saved by [save_history] comes back from
    [load_history] of its module, when the module name and the id hold no
    [/], [json.loads] reads back what [json.dump] wrote, the directory
    listing shows the files of [storage/<module>] and the sort succeeds. *)
Theorem save_then_load json_dumps psc json_loads d m kvs now d' evs p es log hs :
  save_history json_dumps psc d m (JObj kvs) now = (d', evs, Ok p) ->
  no_slash m -> no_slash (history_id psc kvs now) ->
  json_loads (json_dumps (JObj kvs)) = LoadsOk (JObj kvs) ->
  listing_of d' ("storage/" +:+ m) es ->
  load_history json_loads (DirListed es) = (log, Ok hs) ->
  JObj kvs ∈ hs.
Proof.
  intros Hsave Hm Hid Hrt Hls Hload.
  destruct (save_history_ok_file _ _ _ _ _ _ _ _ _ Hsave) as (kvs' & [= <-] & -> & Hfile).
  set (name := m +:+ "_" +:+ history_id psc kvs now +:+ ".json").
  assert (Hname : no_slash name).
  { unfold name. rewrite !no_slash_app. repeat split; try done;
      unfold no_slash; simpl; repeat (apply List.Forall_cons; [discriminate|]); apply List.Forall_nil. }
  assert (Hin : DirEntry name (Ok (json_dumps (JObj kvs))) ∈ es).
  { apply Hls; [done|]. rewrite <- Hfile. unfold history_path, name.
    by rewrite <- !string_app_assoc. }
  assert (Hjson : ends_with ".json" name = true).
  { unfold name. rewrite !string_app_assoc. apply ends_with_app. }
  unfold load_history in Hload. rewrite read_history_files_split in Hload.
  injection Hload as _ Hsort. apply sorted_reverse_perm in Hsort.
  rewrite Hsort. apply list_elem_of_omap.
  exists (DirEntry name (Ok (json_dumps (JObj kvs)))). split.
  - unfold history_files. apply list_elem_of_In, filter_In. split; [|done].
    by apply list_elem_of_In.
  - unfold file_record, load_file. cbn [entry_read mbind py_result_bind]. by rewrite Hrt.
Qed.


(** *** [process_methodology] *)

(** Extra property: [process_methodology] never reads the uploaded file:
    its outcome, world and result, is the same whatever bytes were
    uploaded. *)
Theorem process_methodology_ignores_upload chat_create w tmp bytes1 bytes2 :
  process_methodology chat_create w tmp (TmpWritten bytes1) =
  process_methodology chat_create w tmp (TmpWritten bytes2).
Proof.
  unfold process_methodology.
  destruct (chat_create methodology_request ≫= raw_response_of) as [s|e];
    unfold os_path_exists, os_remove, emit; simpl;
    rewrite !bool_decide_true by (rewrite lookup_insert_eq; eauto);
    by rewrite !delete_insert_eq.
Qed.

(** Extra property: when the temporary file was written, [process_methodology]
    removes it again: the files are as before, the UI gains at most the
    error message, and the result is the stripped reply or [None]. *)
Theorem process_methodology_removes_temp chat_create w tmp bytes :
  fs w !! tmp = None ->
  process_methodology chat_create w tmp (TmpWritten bytes) =
  match chat_create methodology_request ≫= raw_response_of with
  | Ok s => (w, Ok (Some s))
  | Raise e => (emit w [methodology_error e], Ok None)
  end.
Proof.
  intros Hfresh. unfold process_methodology.
  destruct (chat_create methodology_request ≫= raw_response_of) as [s|e];
    unfold os_path_exists, os_remove, emit; simpl;
    rewrite !bool_decide_true by (rewrite lookup_insert_eq; eauto);
    rewrite delete_insert_id by done; by destruct w.
Qed.


(** *** [extract_audio] and its caller *)

Lemma transcribe_audio_fs tc w p language :
  fs (transcribe_audio tc w p language).1 = delete p (fs w).
Proof.
  unfold transcribe_audio, transcribe_try, os_path_exists, os_remove, emit.
  destruct (fs w !! p) as [b|] eqn:Hp.
  - destruct (tc "whisper-1" b language); simpl;
      (rewrite bool_decide_true by (rewrite Hp; eauto)); done.
  - simpl. rewrite bool_decide_false by (rewrite Hp; intros [? ?]; done).
    by rewrite delete_id.
Qed.

(** Extra property: transcribing an uploaded audio file whose temporary
    copy is written leaves the files as they were: [extract_audio] writes
    the copy and [transcribe_audio] removes it, whatever the transcription
    gives. *)
Theorem transcribe_upload_audio_restores_fs tc avail run w tmp_base name bytes language :
  is_video name = false ->
  fs w !! (tmp_base +:+ (py_splitext name).2) = None ->
  fs (transcribe_upload tc avail run w tmp_base name (TmpWritten bytes) language).1 = fs w.
Proof.
  intros Hv Hfresh. unfold transcribe_upload, extract_audio. rewrite Hv. cbn -[py_splitext].
  set (input := tmp_base +:+ (py_splitext name).2) in *. clearbody input.
  destruct (transcribe_audio tc _ _ language) as [w2 r] eqn:Ht.
  pose proof (transcribe_audio_fs tc
    {| fs := <[input:=bytes]> (fs w); ui := ui w |} input language) as Hfs.
  rewrite Ht in Hfs. cbn in Hfs |- *. rewrite Hfs. by apply delete_insert_id.
Qed.

(** Extra property: transcribing an uploaded video that [ffmpeg] converts
    leaves the files as they were: the video copy is removed after the
    conversion and the extracted [.mp3] after the transcription (for fresh
    temporary names). *)
Theorem transcribe_upload_video_restores_fs tc run w tmp_base name bytes language audio :
  let input := tmp_base +:+ (py_splitext name).2 in
  let audio_path := (py_splitext input).1 +:+ ".mp3" in
  is_video name = true -> run bytes = FfmpegOk audio ->
  fs w !! input = None -> fs w !! audio_path = None -> audio_path <> input ->
  fs (transcribe_upload tc true run w tmp_base name (TmpWritten bytes) language).1 = fs w.
Proof.
  intros input audio_path Hv Hrun Hin Haud Hne.
  unfold transcribe_upload, extract_audio. rewrite Hv, Hrun. cbn -[py_splitext].
  fold input. fold audio_path. clearbody input audio_path.
  unfold os_path_exists, os_remove. cbn [fs ui].
  rewrite bool_decide_true by (rewrite lookup_insert_ne by done; rewrite lookup_insert_eq; eauto).
  destruct (transcribe_audio tc _ audio_path language) as [w2 r] eqn:Ht.
  pose proof (transcribe_audio_fs tc
    {| fs := delete input (<[audio_path:=audio]> (<[input:=bytes]> (fs w))); ui := ui w |}
    audio_path language) as Hfs.
  rewrite Ht in Hfs. cbn in Hfs |- *. rewrite Hfs.
  rewrite delete_insert_ne by done. rewrite (delete_insert_id (fs w) input) by done.
  by apply delete_insert_id.
Qed.

(** Extra property: when [ffmpeg] fails on an uploaded video, the
    transcription step raises [TypeError], the video copy is removed, and
    whatever [ffmpeg] left at the [.mp3] path stays on disk. *)
Theorem transcribe_upload_ffmpeg_fails tc run w tmp_base name bytes language status partial :
  let input := tmp_base +:+ (py_splitext name).2 in
  let audio_path := (py_splitext input).1 +:+ ".mp3" in
  is_video name = true -> run bytes = FfmpegFails status partial ->
  fs w !! input = None -> audio_path <> input ->
  (transcribe_upload tc true run w tmp_base name (TmpWritten bytes) language).2 = Raise transcribe_none_error /\
  fs (transcribe_upload tc true run w tmp_base name (TmpWritten bytes) language).1 =
    match partial with Some p => <[audio_path := p]> (fs w) | None => fs w end.
Proof.
  intros input audio_path Hv Hrun Hin Hne.
  unfold transcribe_upload, extract_audio. rewrite Hv, Hrun. cbn -[py_splitext].
  fold input. fold audio_path. clearbody input audio_path.
  unfold os_path_exists, os_remove, emit.
  destruct partial as [p|]; cbn [fs ui].
  - rewrite bool_decide_true by (rewrite lookup_insert_ne by done; rewrite lookup_insert_eq; eauto).
    simpl. split; [done|].
    rewrite delete_insert_ne by done. by rewrite (delete_insert_id (fs w) input).
  - rewrite bool_decide_true by (rewrite lookup_insert_eq; eauto).
    simpl. split; [done|]. by rewrite delete_insert_id.
Qed.


(** ** Witnesses of the further properties *)

Ltac no_slash_concrete :=
  unfold no_slash; vm_compute;
  repeat (apply List.Forall_cons; [discriminate|]); apply List.Forall_nil.

Lemma generate_questions_numbering_witness :
  suggested_questions (generate_questions (stub_backend (Some witness_questions)) EmptyString).2 =
  ([], ["1. Где вы были?"; "3. Кто вас видел?"]).
Proof.
  rewrite (generate_questions_numbering (stub_backend (Some witness_questions)) EmptyString
             (ChatCompletion [ChatMessage (Some witness_questions)]) witness_questions).
  - vm_compute. reflexivity.
  - reflexivity.
  - vm_compute. reflexivity.
  - vm_compute. reflexivity.
  - vm_compute. reflexivity.
Defined.

Lemma compare_then_contradictions_text_witness :
  (compare_testimonies (stub_backend (Some mixed_payload)) payload_loads "a" "b").2 =
    Some ([] ++ JStr "x" :: [JNum 3]) /\
  contradictions_text container_str ([] ++ JStr "x" :: [JNum 3]) =
    Raise (PyExc "AttributeError" ("'" +:+ type_name (JStr "x") +:+ "' object has no attribute 'get'")).
Proof.
  apply (compare_then_contradictions_text _ _ _ "a" "b"
           (ChatCompletion [ChatMessage (Some mixed_payload)]) mixed_payload).
  - reflexivity.
  - vm_compute. reflexivity.
  - vm_compute. reflexivity.
  - apply List.Forall_nil.
  - discriminate.
Defined.

Lemma defendant_between_colons_witness :
  defendant_of ("ФИО" +:+ ":" +:+ " Иванов И.И. " +:+ nl +:+ "Адрес: Астана") =
  Ok (py_strip " Иванов И.И. ").
Proof.
  apply defendant_between_colons.
  - vm_compute. repeat (apply List.Forall_cons; [split; discriminate|]). apply List.Forall_nil.
  - vm_compute. repeat (apply List.Forall_cons; [split; discriminate|]). apply List.Forall_nil.
  - right; right. eexists. reflexivity.
Defined.

Lemma case_number_order_witness :
  String.compare (generate_case_number "М" witness_moment1) (generate_case_number "М" witness_moment2) =
  N.compare (chrono witness_moment1) (chrono witness_moment2).
Proof. apply case_number_order; unfold datetime_ok; simpl; lia. Defined.

Lemma case_number_injective_witness :
  generate_case_number "М" witness_moment1 = generate_case_number "М" witness_moment2 <->
  witness_moment1 = witness_moment2.
Proof. apply case_number_injective; unfold datetime_ok; simpl; lia. Defined.

Lemma save_history_writes_one_file_witness :
  let r := save_history record_dumps container_str empty_disk "planning" (witness_record "42") "20240305070809" in
  (exists kvs, witness_record "42" = JObj kvs /\
     "storage/planning/planning_42.json" = history_path "planning" (history_id container_str kvs "20240305070809")) /\
  disk_files r.1.1 = <["storage/planning/planning_42.json" := record_dumps (witness_record "42")]> (disk_files empty_disk) /\
  disk_dirs r.1.1 = disk_dirs (create_directories empty_disk).1 /\ r.1.2 = (create_directories empty_disk).2.
Proof.
  apply save_history_writes_one_file. vm_compute. reflexivity.
Defined.

Lemma save_history_slash_in_id_witness :
  exists d', save_history record_dumps container_str empty_disk "planning" (JObj [("id", JStr "12/2024")]) "20240305070809" =
    (d', [], Raise (errno_exc "FileNotFoundError" "2" "No such file or directory"
                     (history_path "planning" ("12" +:+ "/" +:+ "2024"))))
    /\ disk_files d' = disk_files empty_disk.
Proof.
  apply save_history_slash_in_id.
  - split; [reflexivity|]. repeat constructor.
  - apply elem_of_cons; right. apply elem_of_cons; left. reflexivity.
  - no_slash_concrete.
  - reflexivity.
  - reflexivity.
  - apply not_elem_of_empty.
Defined.

Lemma save_then_load_witness :
  witness_record "42" ∈ [witness_record "42"].
Proof.
  apply (save_then_load record_dumps container_str record_loads empty_disk "planning"
           [("id", JStr "42"); ("generatedDate", JStr "2024-03-05T07:08:09")] "20240305070809"
           (save_history record_dumps container_str empty_disk "planning" (witness_record "42") "20240305070809").1.1
           (save_history record_dumps container_str empty_disk "planning" (witness_record "42") "20240305070809").1.2
           "storage/planning/planning_42.json"
           [DirEntry "planning_42.json" (Ok record_text)] []).
  - vm_compute. reflexivity.
  - no_slash_concrete.
  - no_slash_concrete.
  - vm_compute. reflexivity.
  - intros name c _ Hlk.
    assert (Hf : disk_files (save_history record_dumps container_str empty_disk "planning"
                               (witness_record "42") "20240305070809").1.1 =
                 {[ "storage/planning/planning_42.json" := record_text ]}).
    { vm_compute. reflexivity. }
    rewrite Hf in Hlk. apply lookup_singleton_Some in Hlk as [Hk <-].
    change ("storage/planning/" +:+ "planning_42.json" = "storage/planning/" +:+ name) in Hk.
    apply (inj (String.append "storage/planning/")) in Hk. subst name. left.
  - vm_compute. reflexivity.
Defined.

Lemma process_methodology_removes_temp_witness :
  process_methodology (stub_backend (Some " Ключевые шаги ")) empty_world "/tmp/tmpq1.pdf"
    (TmpWritten "%PDF-1.4") =
  match stub_backend (Some " Ключевые шаги ") methodology_request ≫= raw_response_of with
  | Ok s => (empty_world, Ok (Some s))
  | Raise e => (emit empty_world [methodology_error e], Ok None)
  end.
Proof. apply process_methodology_removes_temp. reflexivity. Defined.

Lemma transcribe_upload_audio_restores_fs_witness :
  fs (transcribe_upload witness_transcriber true (fun _ => FfmpegOk "AUDIO") empty_world
        "/tmp/tmpa1" "voice.ogg" (TmpWritten "OggS") "ru").1 = fs empty_world.
Proof.
  apply transcribe_upload_audio_restores_fs.
  - vm_compute. reflexivity.
  - reflexivity.
Defined.

Lemma transcribe_upload_video_restores_fs_witness :
  fs (transcribe_upload witness_transcriber true (fun _ => FfmpegOk "AUDIO") empty_world
        "/tmp/tmpv1" "clip.MP4" (TmpWritten "VIDEO") "ru").1 = fs empty_world.
Proof.
  apply (transcribe_upload_video_restores_fs _ _ _ _ _ _ _ "AUDIO").
  - vm_compute. reflexivity.
  - reflexivity.
  - reflexivity.
  - reflexivity.
  - vm_compute. discriminate.
Defined.

Lemma transcribe_upload_ffmpeg_fails_witness :
  (transcribe_upload witness_transcriber true (fun _ => FfmpegFails 1 (Some "ID3")) empty_world
     "/tmp/tmpv1" "clip.avi" (TmpWritten "VIDEO") "ru").2 = Raise transcribe_none_error /\
  fs (transcribe_upload witness_transcriber true (fun _ => FfmpegFails 1 (Some "ID3")) empty_world
        "/tmp/tmpv1" "clip.avi" (TmpWritten "VIDEO") "ru").1 =
    <["/tmp/tmpv1.mp3" := "ID3"]> (fs empty_world).
Proof.
  apply (transcribe_upload_ffmpeg_fails witness_transcriber (fun _ => FfmpegFails 1 (Some "ID3"))
           empty_world "/tmp/tmpv1" "clip.avi" "VIDEO" "ru" 1 (Some "ID3")).
  - vm_compute. reflexivity.
  - reflexivity.
  - reflexivity.
  - vm_compute. discriminate.
Defined.
